(** * github-metrics: release download statistics

    A shallow embedding of [src/github-metrics.py] (class
    [GitHubReleasesAnalyzer]) and the properties of its paginated fetch,
    its release aggregation and its repository scan.

    Python values that come out of [response.json()] are modelled by
    [pyval]; Python integers are unbounded, hence [Z].  JSON numbers are
    taken to be integers (the counts and sizes of the listing API are).
    A [str] is a [string] with one character per position. *)

From Stdlib Require Import String Ascii ZArith Bool List Lia Permutation Sorted.
Import ListNotations.

Local Open Scope string_scope.
Local Open Scope list_scope.
Local Open Scope Z_scope.

(* ===================================================================== *)
(** ** Python values *)
(* ===================================================================== *)

(** A decoded JSON document.  [PDict items] stands for the dict obtained
    by inserting [items] in order, as [dict(items)] does: a later binding
    of a key replaces the value, the key keeps its first position. *)
#[warnings="-register-all"]
Inductive pyval : Type :=
| PNone
| PBool (b : bool)
| PInt (z : Z)
| PStr (s : string)
| PList (items : list pyval)
| PDict (items : list (string * pyval)).

(** The exceptions of a run: those the analysed code raises on its own,
    the [MarkupError] of the console, and any other exception of the
    rendering, by the name of its class. *)
Inductive exn : Type :=
| TypeError
| AttributeError
| KeyError
| MarkupError
| OtherError (class_name : string).

(** Result of a computation that may raise. *)
Inductive except (A : Type) : Type :=
| Ok (a : A)
| Err (e : exn).
Arguments Ok {A} a.
Arguments Err {A} e.

Definition ebind {A B} (c : except A) (k : A -> except B) : except B :=
  match c with
  | Ok a => k a
  | Err e => Err e
  end.

Declare Scope except_scope.
Delimit Scope except_scope with except.
Notation "x <- c ;; k" := (ebind c (fun x => k))
  (at level 61, c at next level, right associativity) : except_scope.
Notation "' pat <- c ;; k" := (ebind c (fun x => match x with pat => k end))
  (at level 61, pat pattern, c at next level, right associativity) : except_scope.

(** A [for] loop whose body may raise: the state is threaded left to
    right, the first exception ends the loop. *)
Fixpoint for_each {A S} (body : S -> A -> except S) (xs : list A) (s : S)
  : except S :=
  match xs with
  | [] => Ok s
  | x :: xs' => ebind (body s x) (for_each body xs')
  end.

Module Dict.

(** [d[k]] of [dict(items)]: the last binding of [k] wins. *)
Fixpoint lookup (k : string) (items : list (string * pyval)) : option pyval :=
  match items with
  | [] => None
  | (k', v) :: rest =>
      match lookup k rest with
      | Some v' => Some v'
      | None => if String.eqb k k' then Some v else None
      end
  end.

(** The keys of [dict(items)] in insertion order. *)
Definition keys (items : list (string * pyval)) : list string :=
  rev (nodup string_dec (rev (map fst items))).

End Dict.

(** [obj.get(key, default)]: only a dict has the method. *)
Definition py_get (obj : pyval) (key : string) (default : pyval) : except pyval :=
  match obj with
  | PDict items =>
      match Dict.lookup key items with
      | Some v => Ok v
      | None => Ok default
      end
  | _ => Err AttributeError
  end.

(** [obj[key]] for a string key. *)
Definition py_getitem (obj : pyval) (key : string) : except pyval :=
  match obj with
  | PDict items =>
      match Dict.lookup key items with
      | Some v => Ok v
      | None => Err KeyError
      end
  | _ => Err TypeError
  end.

Fixpoint chars (s : string) : list pyval :=
  match s with
  | EmptyString => []
  | String c s' => PStr (String c EmptyString) :: chars s'
  end.

(** The items a [for] loop or [list.extend] draws from a value. *)
Definition py_iter (v : pyval) : except (list pyval) :=
  match v with
  | PList items => Ok items
  | PStr s => Ok (chars s)
  | PDict items => Ok (map PStr (Dict.keys items))
  | _ => Err TypeError
  end.

(** [len(v)]. *)
Definition py_len (v : pyval) : except Z :=
  match v with
  | PList items => Ok (Z.of_nat (length items))
  | PStr s => Ok (Z.of_nat (String.length s))
  | PDict items => Ok (Z.of_nat (length (Dict.keys items)))
  | _ => Err TypeError
  end.

(** Truth value of [v] in [if v:] and [if not v:]. *)
Definition py_truthy (v : pyval) : bool :=
  match v with
  | PNone => false
  | PBool b => b
  | PInt z => negb (z =? 0)
  | PStr s => negb (String.eqb s "")
  | PList items => match items with [] => false | _ => true end
  | PDict items => match items with [] => false | _ => true end
  end.

(** The integer a value counts for in arithmetic: [bool] is a subclass
    of [int]. *)
Definition as_int (v : pyval) : option Z :=
  match v with
  | PInt z => Some z
  | PBool b => Some (if b then 1 else 0)
  | _ => None
  end.

(** [n += v] for an [int] [n]. *)
Definition py_iadd (n : Z) (v : pyval) : except Z :=
  match as_int v with
  | Some z => Ok (n + z)
  | None => Err TypeError
  end.

(* ===================================================================== *)
(** ** Release aggregation: [analyze_downloads] *)
(* ===================================================================== *)

(** One entry of [asset_details]. *)
Record asset_row : Type := mk_asset_row {
  release_name : pyval;
  asset_name : pyval;
  downloads : pyval;
  size : pyval;
  content_type : pyval
}.

(** The dict [analyze_downloads] returns. *)
Record analysis : Type := mk_analysis {
  total_downloads : Z;
  total_assets : Z;
  releases_with_downloads : Z;
  total_releases : Z;
  asset_details : list asset_row
}.

Section AnalyzeDownloads.

Local Open Scope except_scope.

(** Body of the inner loop, [for asset in release.get("assets", [])].
    The state is [(release_downloads, total_downloads, asset_details)]. *)
Definition asset_body (release : pyval)
    (st : Z * Z * list asset_row) (asset : pyval)
  : except (Z * Z * list asset_row) :=
  let '(release_downloads, total_downloads, asset_details) := st in
  download_count <- py_get asset "download_count" (PInt 0) ;;
  release_downloads <- py_iadd release_downloads download_count ;;
  total_downloads <- py_iadd total_downloads download_count ;;
  tag_or_unknown <- py_get release "tag_name" (PStr "Unknown") ;;
  release_name <- py_get release "name" tag_or_unknown ;;
  asset_name <- py_get asset "name" (PStr "Unknown") ;;
  size <- py_get asset "size" (PInt 0) ;;
  content_type <- py_get asset "content_type" (PStr "Unknown") ;;
  Ok (release_downloads, total_downloads,
      asset_details ++ [mk_asset_row release_name asset_name
                          download_count size content_type]).

(** Body of the outer loop, [for release in releases].  The state is
    [(total_downloads, total_assets, releases_with_downloads,
    asset_details)]. *)
Definition release_body
    (st : Z * Z * Z * list asset_row) (release : pyval)
  : except (Z * Z * Z * list asset_row) :=
  let '(total_downloads, total_assets, releases_with_downloads,
        asset_details) := st in
  let release_downloads := 0 in
  assets <- py_get release "assets" (PList []) ;;
  release_assets <- py_len assets ;;
  assets <- py_get release "assets" (PList []) ;;
  items <- py_iter assets ;;
  '(release_downloads, total_downloads, asset_details) <-
    for_each (asset_body release) items
      (release_downloads, total_downloads, asset_details) ;;
  let total_assets := total_assets + release_assets in
  let releases_with_downloads :=
    if release_downloads >? 0
    then releases_with_downloads + 1
    else releases_with_downloads in
  Ok (total_downloads, total_assets, releases_with_downloads, asset_details).

Definition analyze_downloads (releases : list pyval) : except analysis :=
  '(total_downloads, total_assets, releases_with_downloads, asset_details) <-
    for_each release_body releases (0, 0, 0, []) ;;
  Ok {| total_downloads := total_downloads;
        total_assets := total_assets;
        releases_with_downloads := releases_with_downloads;
        total_releases := Z.of_nat (length releases);
        asset_details := asset_details |}.

End AnalyzeDownloads.

(* ===================================================================== *)
(** ** What the aggregation computes, in the words of the specification *)
(* ===================================================================== *)

Definition zsum (zs : list Z) : Z := fold_right Z.add 0 zs.

(** Number of elements of a list, as a Python [int]. *)
Definition zlen {A} (xs : list A) : Z := Z.of_nat (length xs).

(** Number of elements of [xs] that satisfy [p]. *)
Definition zcount {A} (p : A -> bool) (xs : list A) : Z := zlen (filter p xs).

(** A field of a record, or its default when the field is absent. *)
Definition field_or (obj : pyval) (key : string) (default : pyval) : pyval :=
  match obj with
  | PDict items =>
      match Dict.lookup key items with
      | Some v => v
      | None => default
      end
  | _ => default
  end.

(** The assets of a release, in order. *)
Definition assets_of (release : pyval) : list pyval :=
  match py_iter (field_or release "assets" (PList [])) with
  | Ok items => items
  | Err _ => []
  end.

(** The download count of an asset, a missing field counting as 0. *)
Definition download_count_of (asset : pyval) : Z :=
  match as_int (field_or asset "download_count" (PInt 0)) with
  | Some z => z
  | None => 0
  end.

(** Summed download counts of the assets of one release. *)
Definition release_downloads (release : pyval) : Z :=
  zsum (map download_count_of (assets_of release)).

(** Display name of a release: its name, else its tag, else "Unknown". *)
Definition display_name (release : pyval) : pyval :=
  match release with
  | PDict items =>
      match Dict.lookup "name" items with
      | Some name => name
      | None =>
          match Dict.lookup "tag_name" items with
          | Some tag => tag
          | None => PStr "Unknown"
          end
      end
  | _ => PStr "Unknown"
  end.

(** The detail row of one asset of a release. *)
Definition row_of (release asset : pyval) : asset_row :=
  {| release_name := display_name release;
     asset_name := field_or asset "name" (PStr "Unknown");
     downloads := field_or asset "download_count" (PInt 0);
     size := field_or asset "size" (PInt 0);
     content_type := field_or asset "content_type" (PStr "Unknown") |}.

(** The detail rows of a batch: one per asset, in encounter order. *)
Definition rows_of (releases : list pyval) : list asset_row :=
  flat_map (fun release => map (row_of release) (assets_of release)) releases.

(** The value a detail row's [downloads] counts for. *)
Definition row_downloads (row : asset_row) : Z :=
  match as_int (downloads row) with
  | Some z => z
  | None => 0
  end.

(** Records on which the aggregation cannot raise: an asset is a dict
    whose download count, when present, is an integer; a release is a
    dict whose assets, when present, are a list of such assets. *)
Definition asset_ok (asset : pyval) : bool :=
  match asset with
  | PDict items =>
      match Dict.lookup "download_count" items with
      | Some v => match as_int v with Some _ => true | None => false end
      | None => true
      end
  | _ => false
  end.

Definition release_ok (release : pyval) : bool :=
  match release with
  | PDict items =>
      match Dict.lookup "assets" items with
      | Some (PList assets) => forallb asset_ok assets
      | Some _ => false
      | None => true
      end
  | _ => false
  end.

(** An asset whose download count is an integer. *)
Definition counted (asset : pyval) : Prop :=
  as_int (field_or asset "download_count" (PInt 0))
  = Some (download_count_of asset).

(* ===================================================================== *)
(** ** The network and the console *)
(* ===================================================================== *)

(** A [requests.exceptions.RequestException]: what [requests.get],
    [raise_for_status] and [response.json] raise on a transport failure,
    on an error status or on an undecodable body. *)
Inductive request_exception : Type :=
| ConnectionError
| ReadTimeout
| HTTPError (status_code : Z)
| JSONDecodeError.

(** Outcome of the three calls of a [try] block, [requests.get],
    [raise_for_status] and [json]: the decoded body or the exception. *)
Inductive response : Type :=
| Body (json : pyval)
| Failed (e : request_exception).

(** The two listing endpoints under [api_base]. *)
Inductive endpoint : Type :=
| UserRepos (username : string)
| RepoReleases (username : string) (repo_name : pyval).

Record request : Type := mk_request {
  url : endpoint;
  params : list (string * pyval)
}.

Module Stats.
(** The dict [total_stats] of [run_analysis]. *)
Record t : Type := mk {
  total_downloads : Z;
  total_assets : Z;
  releases_with_downloads : Z;
  total_releases : Z;
  repos_with_releases : Z
}.
End Stats.

(** What is printed on the console.  The rendering itself (markup,
    panels, tables, progress spinners) is not modelled: a message stands
    for the text or the renderable built from its arguments, and what the
    rendering raises on it, if anything, is a parameter of the run (see
    [rendering] below). *)
Inductive message : Type :=
| AnalyzingUser (username : string)
| ErrorFetchingRepositories (e : request_exception)
| ErrorFetchingReleases (repo_name : pyval) (e : request_exception)
| FailedToFetchRepositories
| FoundRepositories (n : Z)
| OverallStatistics (stats : Stats.t)
| DetailsByRepository
| RepositoryResults (repo_name : pyval) (a : analysis)
| NoDownloadsFound.

(** The world a run lives in: the responses the network will give to the
    requests still to come, in order; the requests issued so far; the
    console output so far. *)
Record world : Type := mk_world {
  pending : list response;
  issued : list request;
  console : list message
}.

(** A run returns, raises, or is blocked on a request that is never
    answered (no timeout is set on the requests). *)
Inductive outcome (A : Type) : Type :=
| Ret (a : A) (w : world)
| Raise (e : exn) (w : world)
| Blocked.
Arguments Ret {A} a w.
Arguments Raise {A} e w.
Arguments Blocked {A}.

Definition M (A : Type) : Type := world -> outcome A.

Definition ret {A} (a : A) : M A := fun w => Ret a w.

Definition bind {A B} (c : M A) (k : A -> M B) : M B :=
  fun w =>
    match c w with
    | Ret a w' => k a w'
    | Raise e w' => Raise e w'
    | Blocked => Blocked
    end.

Definition lift {A} (c : except A) : M A :=
  fun w =>
    match c with
    | Ok a => Ret a w
    | Err e => Raise e w
    end.

Declare Scope run_scope.
Delimit Scope run_scope with run.
Notation "x <- c ;; k" := (bind c (fun x => k))
  (at level 61, c at next level, right associativity) : run_scope.
Notation "c ;; k" := (bind c (fun _ => k))
  (at level 61, right associativity) : run_scope.

(** A page request: it is recorded and answered by the next pending
    response. *)
Definition http_get (url : endpoint) (params : list (string * pyval))
  : M response :=
  fun w =>
    match pending w with
    | [] => Blocked
    | r :: rest =>
        Ret r {| pending := rest;
                 issued := issued w ++ [mk_request url params];
                 console := console w |}
    end.

(** A [for] loop in a run. *)
Fixpoint for_each_run {A S} (body : S -> A -> M S) (xs : list A) (s : S)
  : M S :=
  match xs with
  | [] => ret s
  | x :: xs' => bind (body s x) (for_each_run body xs')
  end.

(* ===================================================================== *)
(** ** Pages and their requests *)
(* ===================================================================== *)

(** The page numbers [1; 2; ...; n]. *)
Definition page_numbers (n : nat) : list Z := map Z.of_nat (seq 1 n).

(** A page that came back as a list of records. *)
Definition page_body (items : list pyval) : response := Body (PList items).

Definition repos_params (page : Z) : list (string * pyval) :=
  [("page", PInt page); ("per_page", PInt 100); ("type", PStr "owner")].

Definition releases_params (page : Z) : list (string * pyval) :=
  [("page", PInt page); ("per_page", PInt 100)].

(* ===================================================================== *)
(** ** [list.sort] *)
(* ===================================================================== *)

Section ListSort.

Context {A : Type} (key : A -> Z).

Fixpoint insert (x : A) (sorted : list A) : list A :=
  match sorted with
  | [] => [x]
  | y :: rest =>
      if key x <=? key y then x :: y :: rest else y :: insert x rest
  end.

(** Ascending by key; of equal keys the one that came first stays
    first. *)
Definition stable_sort (xs : list A) : list A := fold_right insert [] xs.

(** [xs.sort(key=key, reverse=reverse)] of the Python runtime: a stable
    ascending sort; with [reverse=True] the list is reversed, sorted
    and reversed back, so that equal keys keep their original order. *)
Definition list_sort (reverse : bool) (xs : list A) : list A :=
  if reverse then rev (stable_sort (rev xs)) else stable_sort xs.

End ListSort.

(* ===================================================================== *)
(** ** What the scan computes, in the words of the specification *)
(* ===================================================================== *)

(** A repository whose fetched release sequence is not empty. *)
Definition has_releases (fetched : pyval * list pyval) : bool :=
  match snd fetched with
  | [] => false
  | _ :: _ => true
  end.

(** Overall statistics of a list of analyses: the sums of their numeric
    fields, and their number. *)
Definition stats_of (analyses : list analysis) : Stats.t :=
  {| Stats.total_downloads := zsum (map total_downloads analyses);
     Stats.total_assets := zsum (map total_assets analyses);
     Stats.releases_with_downloads :=
       zsum (map releases_with_downloads analyses);
     Stats.total_releases := zsum (map total_releases analyses);
     Stats.repos_with_releases := zlen analyses |}.

(** Componentwise sum of two statistics. *)
Definition add_stats (s t : Stats.t) : Stats.t :=
  {| Stats.total_downloads := Stats.total_downloads s + Stats.total_downloads t;
     Stats.total_assets := Stats.total_assets s + Stats.total_assets t;
     Stats.releases_with_downloads :=
       Stats.releases_with_downloads s + Stats.releases_with_downloads t;
     Stats.total_releases := Stats.total_releases s + Stats.total_releases t;
     Stats.repos_with_releases :=
       Stats.repos_with_releases s + Stats.repos_with_releases t |}.

(** Descending order of [total_downloads]. *)
Definition downloads_ge (x y : pyval * analysis) : Prop :=
  total_downloads (snd y) <= total_downloads (snd x).

(** The entries of a result list whose [total_downloads] is [d]. *)
Definition with_downloads (d : Z) (results : list (pyval * analysis))
  : list (pyval * analysis) :=
  filter (fun x => total_downloads (snd x) =? d) results.

(* ===================================================================== *)
(** ** The fetch, response by response *)
(* ===================================================================== *)

(** The items a page body contributes to the accumulator. *)
Definition page_items (body : pyval) : list pyval :=
  match py_iter body with
  | Ok items => items
  | Err _ => []
  end.

(** A body after which the loop goes on: it is truthy and [extend] can
    draw items from it. *)
Definition appended (body : pyval) : bool :=
  py_truthy body && match py_iter body with Ok _ => true | Err _ => false end.

(** A response that ends the loop normally: a failed request, or a body
    that is falsy (an empty list, but also null, 0, false, an empty
    string or an empty object). *)
Definition stops (r : response) : bool :=
  match r with
  | Failed _ => true
  | Body body => negb (py_truthy body)
  end.

(** What the loop prints when it ends on [r]. *)
Definition stop_message (report : request_exception -> message) (r : response)
  : list message :=
  match r with
  | Failed e => [report e]
  | Body _ => []
  end.

(** The world after [m] has been printed. *)
Definition printed (m : message) (w : world) : world :=
  {| pending := pending w; issued := issued w; console := console w ++ [m] |}.

(* ===================================================================== *)
(** ** More on the aggregation *)
(* ===================================================================== *)

(** The releases on which the body of the outer loop does not raise: a
    dict whose assets, when present, are a list of dicts with integer
    download counts, or an empty string or an empty object, of which
    [len] is 0 and from which the inner loop draws nothing. *)
Definition release_accepts (release : pyval) : bool :=
  match release with
  | PDict _ =>
      match field_or release "assets" (PList []) with
      | PList assets => forallb asset_ok assets
      | PStr s => String.eqb s ""
      | PDict fields => match fields with [] => true | _ :: _ => false end
      | _ => false
      end
  | _ => false
  end.

(** Two analyses put together: the numbers add up, the rows of the
    second follow the rows of the first. *)
Definition merge (a b : analysis) : analysis :=
  {| total_downloads := total_downloads a + total_downloads b;
     total_assets := total_assets a + total_assets b;
     releases_with_downloads :=
       releases_with_downloads a + releases_with_downloads b;
     total_releases := total_releases a + total_releases b;
     asset_details := asset_details a ++ asset_details b |}.

(* ===================================================================== *)
(** ** Construction and entry point *)
(* ===================================================================== *)

(** Truth value of an [Optional[str]]. *)
Definition str_truthy (s : option string) : bool :=
  match s with
  | Some s => negb (String.eqb s "")
  | None => false
  end.

Module Init.

(** The attributes [__init__] sets that the requests depend on. *)
Record t : Type := mk {
  username : string;
  token : option string;
  api_base : string;
  headers : list (string * string)
}.

(** [GitHubReleasesAnalyzer(username, token)], where [github_token] is
    [os.getenv("GITHUB_TOKEN")]. *)
Definition init (username : string) (token github_token : option string) : t :=
  let token := if str_truthy token then token else github_token in
  let headers := [("Accept", "application/vnd.github.v3+json");
                  ("User-Agent", "GitHub-Releases-Analyzer")] in
  let headers :=
    if str_truthy token
    then match token with
         | Some t => headers ++ [("Authorization", String.append "token " t)]
         | None => headers
         end
    else headers in
  {| username := username;
     token := token;
     api_base := "https://api.github.com";
     headers := headers |}.

(** [headers.get(name)]. *)
Fixpoint header (name : string) (headers : list (string * string))
  : option string :=
  match headers with
  | [] => None
  | (k, v) :: rest =>
      match header name rest with
      | Some v' => Some v'
      | None => if String.eqb name k then Some v else None
      end
  end.

End Init.

(** What [main] itself prints. *)
Inductive stdout_line : Type :=
| Usage
| TokenNotFound
| AnErrorOccurred (e : exn).

(** How the process ends: with an exit code, or never, blocked on a
    request.  Interrupts are not modelled. *)
Inductive exit : Type :=
| Exit (code : Z) (stdout : list stdout_line) (w : world)
| Hang.

(* ===================================================================== *)
(** ** Sample data *)
(* ===================================================================== *)

Module Sample.

(** A release named "v1.0" with two assets, "a.zip" with 10 downloads
    and "b.zip" with none. *)
Definition release_v1 : pyval :=
  PDict [("name", PStr "v1.0");
         ("tag_name", PStr "v1.0.0");
         ("assets",
          PList [PDict [("name", PStr "a.zip"); ("download_count", PInt 10)];
                 PDict [("name", PStr "b.zip"); ("download_count", PInt 0)]])].

(** A release without a name, whose only asset was never downloaded. *)
Definition release_idle : pyval :=
  PDict [("tag_name", PStr "v0.9");
         ("assets",
          PList [PDict [("name", PStr "c.tar.gz"); ("download_count", PInt 0);
                        ("size", PInt 2048)]])].

(** A release with neither name nor tag, and an asset without a
    download count. *)
Definition release_untitled : pyval :=
  PDict [("assets",
          PList [PDict [("name", PStr "d.bin"); ("download_count", PInt 3)];
                 PDict [("content_type", PStr "text/plain")]])].

(** A release without assets. *)
Definition release_bare : pyval := PDict [("name", PStr "v0.1")].

Definition releases : list pyval :=
  [release_v1; release_idle; release_untitled; release_bare].

(** What [analyze_downloads] returns on [releases]. *)
Definition analysis_of_releases : analysis :=
  {| total_downloads := 13;
     total_assets := 5;
     releases_with_downloads := 2;
     total_releases := 4;
     asset_details :=
       [mk_asset_row (PStr "v1.0") (PStr "a.zip") (PInt 10) (PInt 0)
          (PStr "Unknown");
        mk_asset_row (PStr "v1.0") (PStr "b.zip") (PInt 0) (PInt 0)
          (PStr "Unknown");
        mk_asset_row (PStr "v0.9") (PStr "c.tar.gz") (PInt 0) (PInt 2048)
          (PStr "Unknown");
        mk_asset_row (PStr "Unknown") (PStr "d.bin") (PInt 3) (PInt 0)
          (PStr "Unknown");
        mk_asset_row (PStr "Unknown") (PStr "Unknown") (PInt 0) (PInt 0)
          (PStr "text/plain")] |}.

(** Three pages of 100, 100 and 37 records. *)
Definition pages : list (list pyval) :=
  [repeat release_bare 100; repeat release_bare 100; repeat release_bare 37].

(** Three repositories; the second has no release, the fetch of the
    third fails on its second page. *)
Definition repos : list pyval :=
  [PDict [("name", PStr "alpha")]; PDict [("name", PStr "beta")];
   PDict [("name", PStr "gamma")]].

Definition scan_responses : list response :=
  [page_body [release_v1; release_bare]; page_body [];
   page_body [];
   page_body [release_untitled; release_idle]; Failed (HTTPError 502)].

Definition scan_world : world :=
  {| pending := scan_responses; issued := []; console := [] |}.

(** A console on which every message is printed. *)
Definition quiet (m : message) : option exn := None.

(** A console that cannot render the error message for the repository
    named "[/x]": the name is interpolated into the markup, where it
    reads as a closing tag that matches no open tag. *)
Definition tagged (m : message) : option exn :=
  match m with
  | ErrorFetchingReleases (PStr repo_name) _ =>
      if String.eqb repo_name "[/x]" then Some MarkupError else None
  | _ => None
  end.

End Sample.

(* ===================================================================== *)
(** ** The console *)
(* ===================================================================== *)

Section Console.

(** What the console raises on a message, if anything.  [console.print]
    reads the text as markup, also the repository name, the user name and
    the error text interpolated into it, and raises [MarkupError] on a
    closing tag that matches no open tag; [None] when the message is
    printed. *)
Variable rendering : message -> option exn.

(** [self.console.print(...)]. *)
Definition print (m : message) : M unit :=
  fun w =>
    match rendering m with
    | None => Ret tt {| pending := pending w;
                        issued := issued w;
                        console := console w ++ [m] |}
    | Some e => Raise e w
    end.

(** What the loop raises when it ends on [r]: what the print of the
    error raises, if the request failed. *)
Definition stop_failure (report : request_exception -> message)
    (r : response) : option exn :=
  match r with
  | Failed e => rendering (report e)
  | Body _ => None
  end.

(* ===================================================================== *)
(** ** The paginated fetch of the specification *)
(* ===================================================================== *)

Section FetchAllPages.

(** The endpoint, its query parameters for a page, and the console
    message for a failed request. *)
Variable endpoint_url : endpoint.
Variable params_of : Z -> list (string * pyval).
Variable report : request_exception -> message.

Local Open Scope run_scope.

(** [fetch_all_pages]: request page after page, append what comes back,
    stop at an empty page or at a failed request.  The two loops of the
    analyzer are instances of it. *)
Fixpoint fetch_all_pages (fuel : nat) (page : Z) (acc : list pyval)
  : M (list pyval) :=
  match fuel with
  | O => fun _ => Blocked
  | S fuel' =>
      response <- http_get endpoint_url (params_of page) ;;
      match response with
      | Body body =>
          if negb (py_truthy body) then ret acc
          else
            items <- lift (py_iter body) ;;
            fetch_all_pages fuel' (page + 1) (acc ++ items)
      | Failed e => print (report e) ;; ret acc
      end
  end.

Definition request_of (page : Z) : request :=
  mk_request endpoint_url (params_of page).

(** The requests for the [n] pages that follow page [first]. *)
Definition requests_after (first : Z) (n : nat) : list request :=
  map (fun k => request_of (first + Z.of_nat k)) (seq 1 n).

(** The fetch from page 1, with as much fuel as responses pending. *)
Definition fetch_all (w : world) : outcome (list pyval) :=
  fetch_all_pages (length (pending w)) 1 [] w.

End FetchAllPages.

(* ===================================================================== *)
(** ** The analyzer: fetching, scanning, reporting *)
(* ===================================================================== *)

Section Analyzer.

(** [self.username]. *)
Variable username : string.

Local Open Scope run_scope.

(** The [while True] loop of [get_user_repos].  Each iteration issues
    one request, so the responses still pending bound the iterations
    ([fuel]); once they are used up the run is blocked. *)
Fixpoint get_user_repos_loop (fuel : nat) (page : Z) (repos : list pyval)
  : M (list pyval) :=
  match fuel with
  | O => fun _ => Blocked
  | S fuel' =>
      let url := UserRepos username in
      let params := [("page", PInt page); ("per_page", PInt 100);
                     ("type", PStr "owner")] in
      response <- http_get url params ;;
      match response with
      | Body page_repos =>
          if negb (py_truthy page_repos) then ret repos
          else
            items <- lift (py_iter page_repos) ;;
            get_user_repos_loop fuel' (page + 1) (repos ++ items)
      | Failed e =>
          print (ErrorFetchingRepositories e) ;;
          ret repos
      end
  end.

Definition get_user_repos : M (list pyval) :=
  fun w => get_user_repos_loop (length (pending w)) 1 [] w.

Section GetRepoReleases.

(** The argument of [get_repo_releases]. *)
Variable repo_name : pyval.

(** The [while True] loop of [get_repo_releases]. *)
Fixpoint get_repo_releases_loop (fuel : nat) (page : Z)
    (releases : list pyval) : M (list pyval) :=
  match fuel with
  | O => fun _ => Blocked
  | S fuel' =>
      let url := RepoReleases username repo_name in
      let params := [("page", PInt page); ("per_page", PInt 100)] in
      response <- http_get url params ;;
      match response with
      | Body page_releases =>
          if negb (py_truthy page_releases) then ret releases
          else
            items <- lift (py_iter page_releases) ;;
            get_repo_releases_loop fuel' (page + 1) (releases ++ items)
      | Failed e =>
          print (ErrorFetchingReleases repo_name e) ;;
          ret releases
      end
  end.

Definition get_repo_releases : M (list pyval) :=
  fun w => get_repo_releases_loop (length (pending w)) 1 [] w.

End GetRepoReleases.

(** The local state of the scan: the dict [total_stats] and the list
    [repos_with_releases]. *)
Record scan_state : Type := mk_scan_state {
  total_stats : Stats.t;
  repos_with_releases : list (pyval * analysis)
}.

Definition scan_init : scan_state :=
  {| total_stats := Stats.mk 0 0 0 0 0; repos_with_releases := [] |}.

(** The [if releases:] block: fold one analysis into the state. *)
Definition fold_in (st : scan_state) (repo_name : pyval) (a : analysis)
  : scan_state :=
  let ts := total_stats st in
  {| total_stats :=
       {| Stats.total_downloads :=
            Stats.total_downloads ts + total_downloads a;
          Stats.total_assets := Stats.total_assets ts + total_assets a;
          Stats.releases_with_downloads :=
            Stats.releases_with_downloads ts + releases_with_downloads a;
          Stats.total_releases :=
            Stats.total_releases ts + total_releases a;
          Stats.repos_with_releases := Stats.repos_with_releases ts + 1 |};
     repos_with_releases := repos_with_releases st ++ [(repo_name, a)] |}.

(** Body of [for repo in repos]. *)
Definition scan_body (st : scan_state) (repo : pyval) : M scan_state :=
  repo_name <- lift (py_getitem repo "name") ;;
  releases <- get_repo_releases repo_name ;;
  match releases with
  | _ :: _ =>
      a <- lift (analyze_downloads releases) ;;
      ret (fold_in st repo_name a)
  | [] => ret st
  end.

(** The loop [for repo in repos] of [run_analysis], from the initial
    [total_stats] and the empty list [repos_with_releases]. *)
Definition scan (repos : list pyval) : M scan_state :=
  for_each_run scan_body repos scan_init.

(** [repos_with_releases.sort(key=lambda x: x[1]["total_downloads"],
    reverse=True)]. *)
Definition sort_by_downloads (results : list (pyval * analysis))
  : list (pyval * analysis) :=
  list_sort (fun x => total_downloads (snd x)) true results.

(** [display_results]: nothing is shown for an analysis without
    releases.  Otherwise lines 114-150 build and print a panel and a
    table; they are recorded as one message, and whether they raise (a
    size that is not a number, a cell or a title the console cannot
    render) is left to [rendering]. *)
Definition display_results (repo_name : pyval) (a : analysis) : M unit :=
  if total_releases a =? 0 then ret tt
  else print (RepositoryResults repo_name a).

Definition run_analysis : M unit :=
  print (AnalyzingUser username) ;;
  repos <- get_user_repos ;;
  match repos with
  | [] => print FailedToFetchRepositories
  | _ :: _ =>
      print (FoundRepositories (zlen repos)) ;;
      st <- scan repos ;;
      print (OverallStatistics (total_stats st)) ;;
      match repos_with_releases st with
      | _ :: _ =>
          print DetailsByRepository ;;
          for_each_run (fun _ x => display_results (fst x) (snd x))
            (sort_by_downloads (repos_with_releases st)) tt
      | [] => ret tt
      end ;;
      if Stats.total_downloads (total_stats st) =? 0
      then print NoDownloadsFound
      else ret tt
  end.

End Analyzer.

(** What [run_analysis] prints once the scan is over: the overall
    statistics, the results of the repositories with releases in the
    order of the sort, and the warning when nothing was downloaded. *)
Definition report_of (st : scan_state) : list message :=
  [OverallStatistics (total_stats st)]
  ++ match repos_with_releases st with
     | [] => []
     | _ :: _ =>
         DetailsByRepository
         :: map (fun x => RepositoryResults (fst x) (snd x))
              (sort_by_downloads (repos_with_releases st))
     end
  ++ (if Stats.total_downloads (total_stats st) =? 0
      then [NoDownloadsFound] else []).

(** The release sequences the scan fetches, one per repository, in scan
    order, each with the repository name. *)
Fixpoint fetch_each (username : string) (repos : list pyval)
  : M (list (pyval * list pyval)) :=
  match repos with
  | [] => ret []
  | repo :: repos' =>
      bind (lift (py_getitem repo "name")) (fun repo_name =>
      bind (get_repo_releases username repo_name) (fun releases =>
      bind (fetch_each username repos') (fun rest =>
      ret ((repo_name, releases) :: rest))))
  end.

(** An entry of the result list reports a fetched repository: it carries
    its name and the analysis of its releases. *)
Definition reports (fetched : pyval * list pyval) (entry : pyval * analysis)
  : Prop :=
  fst entry = fst fetched /\
  analyze_downloads (snd fetched) = Ok (snd entry).

(** A fetch that returns [result] and turns the world [w] into [w']: it
    consumed the bodies [bodies] and then the response [stop], and the
    print of the error, if there was one, did not raise. *)
Definition fetch_trace (endpoint_url : endpoint)
    (params_of : Z -> list (string * pyval))
    (report : request_exception -> message)
    (w : world) (result : list pyval) (w' : world) : Prop :=
  exists (bodies : list pyval) (stop : response),
    pending w = map Body bodies ++ stop :: pending w' /\
    forallb appended bodies = true /\
    stops stop = true /\
    stop_failure report stop = None /\
    result = flat_map page_items bodies /\
    issued w'
    = issued w ++ map (request_of endpoint_url params_of)
                    (page_numbers (S (length bodies))) /\
    console w' = console w ++ stop_message report stop.

(** [main], with [argv] for [sys.argv] and [github_token] for
    [os.getenv("GITHUB_TOKEN")]. *)
Definition main (argv : list string) (github_token : option string)
    (w : world) : exit :=
  if negb (Nat.eqb (length argv) 2) then Exit 1 [Usage] w
  else
    let username := nth 1 argv "" in
    let token := github_token in
    let stdout := if str_truthy token then [] else [TokenNotFound] in
    match run_analysis username w with
    | Ret _ w' => Exit 0 stdout w'
    | Raise e w' => Exit 0 (stdout ++ [AnErrorOccurred e]) w'
    | Blocked => Hang
    end.

(* ===================================================================== *)
(** ** Reasoning about computations that may raise *)
(* ===================================================================== *)

Lemma ebind_ok {A B} (c : except A) (k : A -> except B) (b : B) :
  ebind c k = Ok b -> exists a, c = Ok a /\ k a = Ok b.
Proof.
  destruct c as [a | e]; simpl; intros H.
  - exists a. split; [reflexivity | exact H].
  - discriminate H.
Qed.

(** Split a hypothesis [x <- c ;; k = Ok b] into its two steps. *)
Tactic Notation "ebind_inv" hyp(H) "as" ident(a) ident(Ha) :=
  apply ebind_ok in H; destruct H as (a & Ha & H).

Lemma py_get_ok (obj : pyval) (key : string) (default v : pyval) :
  py_get obj key default = Ok v ->
  v = field_or obj key default /\ exists items, obj = PDict items.
Proof.
  destruct obj; simpl; try discriminate.
  intros H. split; [| eexists; reflexivity].
  destruct (Dict.lookup key items); congruence.
Qed.

Lemma py_iadd_ok (n : Z) (v : pyval) (m : Z) :
  py_iadd n v = Ok m -> exists z, as_int v = Some z /\ m = n + z.
Proof.
  unfold py_iadd. destruct (as_int v) as [z |]; [| discriminate].
  intros H. exists z. split; congruence.
Qed.

Lemma length_chars (s : string) : length (chars s) = String.length s.
Proof. induction s; simpl; congruence. Qed.

(** [len] of a value is the number of items a loop draws from it. *)
Lemma py_len_iter (v : pyval) (n : Z) (items : list pyval) :
  py_len v = Ok n -> py_iter v = Ok items -> n = zlen items.
Proof.
  unfold zlen.
  destruct v; simpl; try discriminate; intros Hn Hi;
    injection Hn as <-; injection Hi as <-.
  - now rewrite length_chars.
  - reflexivity.
  - now rewrite length_map.
Qed.

Lemma display_name_ok (release tag name : pyval) :
  py_get release "tag_name" (PStr "Unknown") = Ok tag ->
  py_get release "name" tag = Ok name ->
  name = display_name release.
Proof.
  destruct release; simpl; try discriminate.
  destruct (Dict.lookup "tag_name" items), (Dict.lookup "name" items);
    congruence.
Qed.

Lemma zsum_app (xs ys : list Z) : zsum (xs ++ ys) = zsum xs + zsum ys.
Proof. unfold zsum. induction xs; simpl; lia. Qed.

Lemma zlen_app {A} (xs ys : list A) : zlen (xs ++ ys) = zlen xs + zlen ys.
Proof. unfold zlen. rewrite length_app. lia. Qed.

Lemma zcount_cons {A} (p : A -> bool) (x : A) (xs : list A) :
  zcount p (x :: xs) = (if p x then 1 else 0) + zcount p xs.
Proof.
  unfold zcount, zlen. simpl. destruct (p x); simpl length; lia.
Qed.

(* ===================================================================== *)
(** ** The aggregation loops *)
(* ===================================================================== *)

Lemma asset_body_ok release rd td rows asset rd' td' rows' :
  asset_body release (rd, td, rows) asset = Ok (rd', td', rows') ->
  rd' = rd + download_count_of asset /\
  td' = td + download_count_of asset /\
  rows' = rows ++ [row_of release asset] /\
  counted asset.
Proof.
  unfold asset_body. intros H.
  ebind_inv H as count Hcount. apply py_get_ok in Hcount as [-> _].
  ebind_inv H as rd1 Hrd. apply py_iadd_ok in Hrd as (z & Hz & ->).
  ebind_inv H as td1 Htd. apply py_iadd_ok in Htd as (z' & Hz' & ->).
  ebind_inv H as tag Htag.
  ebind_inv H as name Hname.
  pose proof (display_name_ok _ _ _ Htag Hname) as ->.
  ebind_inv H as aname Haname. apply py_get_ok in Haname as [-> _].
  ebind_inv H as size Hsize. apply py_get_ok in Hsize as [-> _].
  ebind_inv H as ctype Hctype. apply py_get_ok in Hctype as [-> _].
  injection H as <- <- <-.
  assert (Hd : download_count_of asset = z)
    by (unfold download_count_of; now rewrite Hz).
  unfold counted. rewrite Hd. repeat split; try congruence.
Qed.

Lemma asset_loop_ok release items : forall rd td rows rd' td' rows',
  for_each (asset_body release) items (rd, td, rows) = Ok (rd', td', rows') ->
  rd' = rd + zsum (map download_count_of items) /\
  td' = td + zsum (map download_count_of items) /\
  rows' = rows ++ map (row_of release) items /\
  Forall counted items.
Proof.
  induction items as [| asset items IH]; simpl; intros rd td rows rd' td' rows' H.
  - injection H as <- <- <-. rewrite app_nil_r. repeat split; auto; lia.
  - ebind_inv H as st Hbody. destruct st as [[rd1 td1] rows1].
    apply asset_body_ok in Hbody as (-> & -> & -> & Hc).
    apply IH in H as (-> & -> & -> & Hall).
    rewrite <- app_assoc. simpl. repeat split; auto; lia.
Qed.

Lemma release_body_ok td ta rwd rows release td' ta' rwd' rows' :
  release_body (td, ta, rwd, rows) release = Ok (td', ta', rwd', rows') ->
  td' = td + release_downloads release /\
  ta' = ta + zlen (assets_of release) /\
  rwd' = rwd + (if release_downloads release >? 0 then 1 else 0) /\
  rows' = rows ++ map (row_of release) (assets_of release) /\
  Forall counted (assets_of release).
Proof.
  unfold release_body. intros H.
  ebind_inv H as assets Hassets. apply py_get_ok in Hassets as [-> _].
  ebind_inv H as n Hlen.
  ebind_inv H as assets Hassets. apply py_get_ok in Hassets as [-> _].
  ebind_inv H as items Hiter.
  pose proof (py_len_iter _ _ _ Hlen Hiter) as ->.
  ebind_inv H as st Hloop. destruct st as [[rd1 td1] rows1].
  apply asset_loop_ok in Hloop as (-> & -> & -> & Hall).
  injection H as <- <- <- <-.
  unfold release_downloads, assets_of. rewrite Hiter. simpl.
  repeat split; auto.
  destruct (zsum (map download_count_of items) >? 0); lia.
Qed.

Lemma release_loop_ok releases : forall td ta rwd rows td' ta' rwd' rows',
  for_each release_body releases (td, ta, rwd, rows)
  = Ok (td', ta', rwd', rows') ->
  td' = td + zsum (map release_downloads releases) /\
  ta' = ta + zsum (map (fun r => zlen (assets_of r)) releases) /\
  rwd' = rwd + zcount (fun r => release_downloads r >? 0) releases /\
  rows' = rows ++ rows_of releases /\
  Forall (fun r => Forall counted (assets_of r)) releases.
Proof.
  induction releases as [| r releases IH]; simpl;
    intros td ta rwd rows td' ta' rwd' rows' H.
  - injection H as <- <- <- <-. rewrite app_nil_r.
    repeat split; auto; unfold zcount, zlen; simpl; lia.
  - ebind_inv H as st Hbody. destruct st as [[[td1 ta1] rwd1] rows1].
    apply release_body_ok in Hbody as (-> & -> & -> & -> & Hc).
    apply IH in H as (-> & -> & -> & -> & Hall).
    rewrite zcount_cons, <- app_assoc.
    repeat split; auto; lia.
Qed.

(** The closed form of [analyze_downloads], whenever it returns. *)
Lemma analyze_downloads_ok (releases : list pyval) (a : analysis) :
  analyze_downloads releases = Ok a ->
  a = {| total_downloads := zsum (map release_downloads releases);
         total_assets := zsum (map (fun r => zlen (assets_of r)) releases);
         releases_with_downloads :=
           zcount (fun r => release_downloads r >? 0) releases;
         total_releases := zlen releases;
         asset_details := rows_of releases |} /\
  Forall (fun r => Forall counted (assets_of r)) releases.
Proof.
  unfold analyze_downloads. intros H.
  ebind_inv H as st Hloop. destruct st as [[[td ta] rwd] rows].
  apply release_loop_ok in Hloop as (-> & -> & -> & -> & Hall).
  injection H as <-. split; [reflexivity | exact Hall].
Qed.

(** On well-formed records the aggregation returns. *)
Lemma for_each_total {A S} (body : S -> A -> except S) (xs : list A) :
  (forall s x, In x xs -> exists s', body s x = Ok s') ->
  forall s, exists s', for_each body xs s = Ok s'.
Proof.
  induction xs as [| x xs IH]; simpl; intros Hbody s.
  - eexists; reflexivity.
  - destruct (Hbody s x) as [s1 ->]; [now left |]. simpl.
    apply IH. intros s2 y Hy. apply Hbody. now right.
Qed.

Lemma asset_body_total (fields : list (string * pyval)) st asset :
  asset_ok asset = true ->
  exists st', asset_body (PDict fields) st asset = Ok st'.
Proof.
  destruct st as [[rd td] rows].
  destruct asset as [| | | | | items]; simpl; try discriminate.
  unfold asset_body, py_get, py_iadd.
  destruct (Dict.lookup "download_count" items) as [v |]; simpl.
  - destruct (as_int v); [| discriminate]. intros _. simpl.
    destruct (Dict.lookup "tag_name" fields), (Dict.lookup "name" fields),
      (Dict.lookup "name" items), (Dict.lookup "size" items),
      (Dict.lookup "content_type" items); simpl; eexists; reflexivity.
  - intros _.
    destruct (Dict.lookup "tag_name" fields), (Dict.lookup "name" fields),
      (Dict.lookup "name" items), (Dict.lookup "size" items),
      (Dict.lookup "content_type" items); simpl; eexists; reflexivity.
Qed.

Lemma release_body_total st release :
  release_ok release = true -> exists st', release_body st release = Ok st'.
Proof.
  destruct st as [[[td ta] rwd] rows].
  destruct release as [| | | | | fields]; simpl; try discriminate.
  unfold release_body, py_get.
  destruct (Dict.lookup "assets" fields) as [v |]; simpl.
  - destruct v as [| | | | assets |]; try discriminate. intros Hall. simpl.
    destruct (for_each_total (asset_body (PDict fields)) assets) with
      (s := (0, td, rows)) as [[[rd1 td1] rows1] ->].
    + intros s x Hx. apply asset_body_total.
      rewrite forallb_forall in Hall. now apply Hall.
    + simpl. eexists; reflexivity.
  - intros _. eexists; reflexivity.
Qed.

Lemma analyze_downloads_total (releases : list pyval) :
  forallb release_ok releases = true ->
  exists a, analyze_downloads releases = Ok a.
Proof.
  intros Hall. unfold analyze_downloads.
  destruct (for_each_total release_body releases) with
    (s := (0, 0, 0, @nil asset_row)) as [[[[td ta] rwd] rows] ->].
  - intros s x Hx. apply release_body_total.
    rewrite forallb_forall in Hall. now apply Hall.
  - simpl. eexists; reflexivity.
Qed.

(** The scenario of the specification: one release "v1.0" with the
    assets "a.zip" (10 downloads) and "b.zip" (none). *)
Example analyze_downloads_v1 :
  analyze_downloads [Sample.release_v1]
  = Ok {| total_downloads := 10;
          total_assets := 2;
          releases_with_downloads := 1;
          total_releases := 1;
          asset_details :=
            [mk_asset_row (PStr "v1.0") (PStr "a.zip") (PInt 10) (PInt 0)
               (PStr "Unknown");
             mk_asset_row (PStr "v1.0") (PStr "b.zip") (PInt 0) (PInt 0)
               (PStr "Unknown")] |}.
Proof. reflexivity. Qed.

(** A release whose name is present but null keeps it: [dict.get] falls
    back only when the key is missing. *)
Example analyze_downloads_null_name :
  option_map release_name
    (match analyze_downloads
             [PDict [("name", PNone); ("tag_name", PStr "v2");
                     ("assets", PList [PDict []])]]
     with
     | Ok a => hd_error (asset_details a)
     | Err _ => None
     end)
  = Some PNone.
Proof. reflexivity. Qed.

(** Records of the wrong shape make the aggregation raise. *)
Example analyze_downloads_raises :
  analyze_downloads [PDict [("assets", PNone)]] = Err TypeError /\
  analyze_downloads [PStr "v1.0"] = Err AttributeError /\
  analyze_downloads
    [PDict [("assets", PList [PDict [("download_count", PStr "7")]])]]
  = Err TypeError.
Proof. repeat split; reflexivity. Qed.

(** A release that has downloads has an asset. *)
Lemma downloads_need_assets (release : pyval) :
  (if release_downloads release >? 0 then 1 else 0)
  <= zlen (assets_of release).
Proof.
  unfold release_downloads, zlen.
  destruct (assets_of release) as [| asset assets]; simpl; [lia |].
  destruct (_ >? 0); lia.
Qed.

Lemma count_le_assets (releases : list pyval) :
  zcount (fun r => release_downloads r >? 0) releases
  <= zsum (map (fun r => zlen (assets_of r)) releases).
Proof.
  induction releases as [| r releases IH].
  - unfold zcount, zlen. simpl. lia.
  - rewrite zcount_cons. simpl.
    pose proof (downloads_need_assets r). lia.
Qed.

Lemma zlen_rows_of (releases : list pyval) :
  zlen (rows_of releases)
  = zsum (map (fun r => zlen (assets_of r)) releases).
Proof.
  induction releases as [| r releases IH]; simpl; [reflexivity |].
  rewrite zlen_app, IH. unfold zlen at 1. now rewrite length_map.
Qed.

Lemma row_downloads_rows_of (releases : list pyval) :
  zsum (map row_downloads (rows_of releases))
  = zsum (map release_downloads releases).
Proof.
  induction releases as [| r releases IH]; simpl; [reflexivity |].
  rewrite map_app, zsum_app, IH, map_map. reflexivity.
Qed.

Lemma release_name_rows_of (releases : list pyval) :
  map release_name (rows_of releases)
  = flat_map (fun r => map (fun _ => display_name r) (assets_of r)) releases.
Proof.
  induction releases as [| r releases IH]; simpl; [reflexivity |].
  now rewrite map_app, IH, map_map.
Qed.

Lemma rows_of_counted (releases : list pyval) :
  Forall (fun r => Forall counted (assets_of r)) releases ->
  Forall (fun row => as_int (downloads row) = Some (row_downloads row))
    (rows_of releases).
Proof.
  induction 1 as [| r releases Hr _ IH]; simpl; [constructor |].
  apply Forall_app. split; [| exact IH].
  apply Forall_map. revert Hr. apply Forall_impl.
  intros asset Hc. exact Hc.
Qed.

(* ===================================================================== *)
(** ** The paginated fetch *)
(* ===================================================================== *)

Lemma page_numbers_S (n : nat) :
  page_numbers (S n) = page_numbers n ++ [Z.of_nat (S n)].
Proof.
  unfold page_numbers. rewrite seq_S, map_app. reflexivity.
Qed.

Section FetchAllPagesFacts.

Variable endpoint_url : endpoint.
Variable params_of : Z -> list (string * pyval).
Variable report : request_exception -> message.

Local Abbreviation fetch := (fetch_all_pages endpoint_url params_of report).
Local Abbreviation request := (request_of endpoint_url params_of).
Local Abbreviation requests_after :=
  (requests_after endpoint_url params_of).
Local Abbreviation fetch_all := (fetch_all endpoint_url params_of report).

Lemma requests_after_cons (first : Z) (n : nat) :
  requests_after first (S n)
  = request (first + 1) :: requests_after (first + 1) n.
Proof.
  unfold requests_after. simpl. f_equal.
  rewrite <- seq_shift, map_map. apply map_ext. intros k.
  f_equal. lia.
Qed.

(** Non-empty pages are appended one after the other, each by one
    request for the next page number. *)
Lemma fetch_through_pages (pages : list (list pyval)) :
  forall fuel page acc rest reqs out,
    Forall (fun p => p <> []) pages ->
    fetch (length pages + fuel) (page + 1) acc
      {| pending := map page_body pages ++ rest;
         issued := reqs; console := out |}
    = fetch fuel (page + 1 + zlen pages) (acc ++ concat pages)
        {| pending := rest;
           issued := reqs ++ requests_after page (length pages);
           console := out |}.
Proof.
  induction pages as [| p pages IH]; intros fuel page acc rest reqs out Hne.
  - simpl. unfold zlen, requests_after. simpl.
    rewrite !app_nil_r, Z.add_0_r. reflexivity.
  - inversion Hne as [| ? ? Hp Hps]; subst.
    cbn [length Nat.add map app fetch_all_pages].
    unfold bind at 1. unfold http_get. cbn [pending issued console page_body].
    destruct p as [| x p]; [congruence |].
    cbn [py_truthy negb py_iter lift bind].
    rewrite (IH fuel (page + 1) (acc ++ x :: p) rest _ out Hps).
    rewrite requests_after_cons, <- !app_assoc. cbn [concat app].
    replace (page + 1 + 1 + zlen pages)
      with (page + 1 + zlen ((x :: p) :: pages))
      by (unfold zlen; cbn [length]; lia).
    reflexivity.
Qed.

Lemma requests_after_0 (n : nat) :
  requests_after 0 n = map request (page_numbers n).
Proof.
  unfold requests_after, page_numbers. rewrite map_map. reflexivity.
Qed.

(** Pages until an empty one. *)
Lemma fetch_all_until_empty (pages : list (list pyval)) rest reqs out :
  Forall (fun p => p <> []) pages ->
  fetch_all {| pending := map page_body pages ++ page_body [] :: rest;
               issued := reqs; console := out |}
  = Ret (concat pages)
      {| pending := rest;
         issued := reqs ++ map request (page_numbers (S (length pages)));
         console := out |}.
Proof.
  intros Hne. unfold fetch_all. cbn [pending].
  rewrite length_app, length_map. cbn [length].
  change 1 with (0 + 1) at 1.
  rewrite fetch_through_pages by exact Hne.
  cbn [fetch_all_pages]. unfold bind, http_get, ret.
  cbn [pending issued console page_body py_truthy negb app].
  rewrite page_numbers_S, map_app, requests_after_0, <- app_assoc.
  cbn [map app]. unfold request_of, zlen.
  replace (0 + 1 + Z.of_nat (length pages))
    with (Z.of_nat (S (length pages))) by lia.
  reflexivity.
Qed.

(** Pages until a failed request: the error is printed, or the print
    raises. *)
Lemma fetch_all_until_failed (pages : list (list pyval)) e rest reqs out :
  Forall (fun p => p <> []) pages ->
  fetch_all {| pending := map page_body pages ++ Failed e :: rest;
               issued := reqs; console := out |}
  = match rendering (report e) with
    | None =>
        Ret (concat pages)
          {| pending := rest;
             issued := reqs ++ map request (page_numbers (S (length pages)));
             console := out ++ [report e] |}
    | Some x =>
        Raise x
          {| pending := rest;
             issued := reqs ++ map request (page_numbers (S (length pages)));
             console := out |}
    end.
Proof.
  intros Hne. unfold fetch_all. cbn [pending].
  rewrite length_app, length_map. cbn [length].
  change 1 with (0 + 1) at 1.
  rewrite fetch_through_pages by exact Hne.
  cbn [fetch_all_pages]. unfold bind, http_get, ret, print.
  cbn [pending issued console app].
  rewrite page_numbers_S, map_app, requests_after_0, <- app_assoc.
  cbn [map app]. unfold request_of, zlen.
  replace (0 + 1 + Z.of_nat (length pages))
    with (Z.of_nat (S (length pages))) by lia.
  destruct (rendering (report e)); reflexivity.
Qed.

(** Non-empty pages alone never end the loop: the run waits for the
    next response. *)
Lemma fetch_all_blocked (pages : list (list pyval)) reqs out :
  Forall (fun p => p <> []) pages ->
  fetch_all {| pending := map page_body pages;
               issued := reqs; console := out |}
  = Blocked.
Proof.
  intros Hne. unfold fetch_all. cbn [pending].
  rewrite length_map, <- (Nat.add_0_r (length pages)).
  rewrite <- (app_nil_r (map page_body pages)).
  change 1 with (0 + 1) at 1.
  rewrite fetch_through_pages by exact Hne. reflexivity.
Qed.

(** Fuel beyond the number of pending responses is never used. *)
Lemma fetch_all_pages_fuel (fuel : nat) : forall page acc w,
  (length (pending w) <= fuel)%nat ->
  fetch fuel page acc w = fetch (length (pending w)) page acc w.
Proof.
  induction fuel as [| fuel IH]; intros page acc [pend reqs out] Hle;
    cbn [pending] in *.
  - destruct pend; [reflexivity | simpl in Hle; lia].
  - destruct pend as [| r pend]; [reflexivity |].
    cbn [length fetch_all_pages]. unfold bind, http_get.
    cbn [pending issued console].
    destruct r as [body | e]; [| reflexivity].
    destruct (negb (py_truthy body)); [reflexivity |].
    destruct (py_iter body) as [items | e]; [| reflexivity].
    cbn [lift]. rewrite IH by (cbn [pending]; simpl in Hle; lia).
    reflexivity.
Qed.

End FetchAllPagesFacts.

(** The two loops of the analyzer are the paginated fetch at their
    endpoint: the definitions coincide. *)
Lemma get_user_repos_fetch_all (username : string) :
  get_user_repos username
  = fetch_all (UserRepos username) repos_params ErrorFetchingRepositories.
Proof. reflexivity. Qed.

Lemma get_repo_releases_fetch_all (username : string) (repo_name : pyval) :
  get_repo_releases username repo_name
  = fetch_all (RepoReleases username repo_name) releases_params
      (ErrorFetchingReleases repo_name).
Proof. reflexivity. Qed.

(* ===================================================================== *)
(** ** The repository scan *)
(* ===================================================================== *)

(** The two ways out of the body of the scan loop. *)
Lemma scan_body_ok username st repo w st1 w1 :
  scan_body username st repo w = Ret st1 w1 ->
  exists repo_name releases,
    py_getitem repo "name" = Ok repo_name /\
    get_repo_releases username repo_name w = Ret releases w1 /\
    ((releases = [] /\ st1 = st) \/
     (releases <> [] /\
      exists a, analyze_downloads releases = Ok a /\
                st1 = fold_in st repo_name a)).
Proof.
  unfold scan_body, bind, lift.
  destruct (py_getitem repo "name") as [repo_name | e]; [| discriminate].
  destruct (get_repo_releases username repo_name w)
    as [releases w2 | e w2 |] eqn:Hfetch; try discriminate.
  destruct releases as [| r releases].
  - unfold ret. intros H. injection H as <- <-.
    exists repo_name, []. repeat split; auto.
  - destruct (analyze_downloads (r :: releases)) as [a | e] eqn:Ha;
      [| discriminate].
    unfold ret. intros H. injection H as <- <-.
    exists repo_name, (r :: releases).
    split; [reflexivity |]. split; [exact Hfetch |].
    right. split; [discriminate |].
    exists a. split; [exact Ha | reflexivity].
Qed.

Lemma add_stats_fold_in st repo_name a :
  total_stats (fold_in st repo_name a)
  = add_stats (total_stats st) (stats_of [a]).
Proof.
  unfold fold_in, add_stats, stats_of, zlen. simpl.
  f_equal; lia.
Qed.

Lemma add_stats_cons s a analyses :
  add_stats (add_stats s (stats_of [a])) (stats_of analyses)
  = add_stats s (stats_of (a :: analyses)).
Proof.
  unfold add_stats, stats_of, zlen. simpl. f_equal; lia.
Qed.

Lemma add_stats_nil s : add_stats s (stats_of []) = s.
Proof.
  destruct s. unfold add_stats, stats_of, zlen. simpl. f_equal; lia.
Qed.

(** The scan loop from any state: what it fetched, and what it added. *)
Lemma scan_loop_ok username repos : forall st0 w st w',
  for_each_run (scan_body username) repos st0 w = Ret st w' ->
  exists fetched added,
    fetch_each username repos w = Ret fetched w' /\
    Forall2 reports (filter has_releases fetched) added /\
    repos_with_releases st = repos_with_releases st0 ++ added /\
    total_stats st = add_stats (total_stats st0) (stats_of (map snd added)).
Proof.
  induction repos as [| repo repos IH]; intros st0 w st w' H.
  - injection H as <- <-. exists [], []. simpl.
    rewrite app_nil_r, add_stats_nil. repeat split; constructor.
  - cbn [for_each_run] in H. unfold bind at 1 in H.
    destruct (scan_body username st0 repo w) as [st1 w1 | |] eqn:Hbody;
      try discriminate.
    apply scan_body_ok in Hbody
      as (repo_name & releases & Hname & Hfetch & Hcase).
    apply IH in H as (fetched & added & Hrest & Hrep & Hlist & Hstats).
    exists ((repo_name, releases) :: fetched).
    cbn [fetch_each]. unfold bind, lift. rewrite Hname, Hfetch, Hrest.
    destruct Hcase as [[-> ->] | (Hne & a & Ha & ->)].
    + exists added. repeat split; auto.
    + exists ((repo_name, a) :: added).
      destruct releases as [| r releases]; [congruence |].
      cbn [filter has_releases snd].
      rewrite Hlist, Hstats, add_stats_fold_in. cbn [fold_in repos_with_releases].
      rewrite <- app_assoc. cbn [map snd]. rewrite add_stats_cons.
      repeat split; auto.
      constructor; [| exact Hrep]. split; auto.
Qed.

Lemma scan_ok username repos w st w' :
  scan username repos w = Ret st w' ->
  exists fetched,
    fetch_each username repos w = Ret fetched w' /\
    Forall2 reports (filter has_releases fetched) (repos_with_releases st) /\
    total_stats st = stats_of (map snd (repos_with_releases st)).
Proof.
  unfold scan. intros H.
  apply scan_loop_ok in H as (fetched & added & Hf & Hrep & Hlist & Hstats).
  exists fetched. rewrite Hlist, Hstats. cbn [scan_init repos_with_releases app total_stats].
  repeat split; auto.
Qed.

(* ===================================================================== *)
(** ** Sorting *)
(* ===================================================================== *)

Section ListSortFacts.

Context {A : Type} (key : A -> Z).

Local Abbreviation ascending := (fun x y : A => key x <= key y).
Local Abbreviation descending := (fun x y : A => key y <= key x).
Local Abbreviation keyed k := (fun x : A => key x =? k).

Lemma insert_perm (x : A) (l : list A) :
  Permutation (x :: l) (insert key x l).
Proof.
  induction l as [| y l IH]; simpl; [reflexivity |].
  destruct (key x <=? key y); [reflexivity |].
  rewrite perm_swap. now apply perm_skip.
Qed.

Lemma stable_sort_perm (l : list A) : Permutation l (stable_sort key l).
Proof.
  induction l as [| x l IH]; simpl; [constructor |].
  rewrite <- insert_perm. now apply perm_skip.
Qed.

Lemma insert_sorted (x : A) (l : list A) :
  Sorted ascending l -> Sorted ascending (insert key x l).
Proof.
  induction 1 as [| y l Hs IH Hhd]; simpl; [repeat constructor |].
  destruct (key x <=? key y) eqn:Hxy.
  - apply Z.leb_le in Hxy. repeat constructor; auto.
  - apply Z.leb_gt in Hxy. constructor; [exact IH |].
    destruct l as [| z l]; simpl.
    + constructor. lia.
    + destruct (key x <=? key z); constructor; [lia |].
      now inversion Hhd.
Qed.

Lemma stable_sort_sorted (l : list A) :
  StronglySorted ascending (stable_sort key l).
Proof.
  apply Sorted_StronglySorted; [intros x y z; simpl; lia |].
  induction l as [| x l IH]; simpl; [constructor |].
  now apply insert_sorted.
Qed.

(** Inserting does not disturb the elements of any one key. *)
Lemma filter_insert (k : Z) (x : A) (l : list A) :
  filter (keyed k) (insert key x l) = filter (keyed k) (x :: l).
Proof.
  induction l as [| y l IH]; [reflexivity |].
  cbn [insert]. destruct (key x <=? key y) eqn:Hxy; [reflexivity |].
  apply Z.leb_gt in Hxy.
  cbn [filter] in *. rewrite IH.
  destruct (key x =? k) eqn:Hx, (key y =? k) eqn:Hy; try reflexivity.
  apply Z.eqb_eq in Hx, Hy. lia.
Qed.

Lemma stable_sort_stable (k : Z) (l : list A) :
  filter (keyed k) (stable_sort key l) = filter (keyed k) l.
Proof.
  induction l as [| x l IH]; [reflexivity |].
  cbn [stable_sort fold_right]. fold (stable_sort key l).
  rewrite filter_insert. cbn [filter]. now rewrite IH.
Qed.

Lemma StronglySorted_snoc (R : A -> A -> Prop) (l : list A) (x : A) :
  StronglySorted R l -> Forall (fun y => R y x) l ->
  StronglySorted R (l ++ [x]).
Proof.
  induction 1 as [| y l Hs IH Hall]; intros Hx; simpl.
  - repeat constructor.
  - inversion Hx; subst. constructor; [auto |].
    apply Forall_app. split; [exact Hall | repeat constructor; auto].
Qed.

Lemma StronglySorted_rev (l : list A) :
  StronglySorted ascending l -> StronglySorted descending (rev l).
Proof.
  induction 1 as [| x l Hs IH Hall]; simpl; [constructor |].
  apply StronglySorted_snoc; [exact IH |].
  apply Forall_rev. exact Hall.
Qed.

(** [list.sort] with [reverse=True]: a stable descending sort. *)
Lemma list_sort_reverse_perm (l : list A) :
  Permutation l (list_sort key true l).
Proof.
  unfold list_sort. rewrite <- Permutation_rev, <- stable_sort_perm.
  apply Permutation_rev.
Qed.

Lemma list_sort_reverse_sorted (l : list A) :
  StronglySorted descending (list_sort key true l).
Proof.
  unfold list_sort. apply StronglySorted_rev, stable_sort_sorted.
Qed.

Lemma list_sort_reverse_stable (k : Z) (l : list A) :
  filter (keyed k) (list_sort key true l) = filter (keyed k) l.
Proof.
  unfold list_sort.
  now rewrite filter_rev, stable_sort_stable, <- filter_rev, rev_involutive.
Qed.

End ListSortFacts.

(* ===================================================================== *)
(** ** The properties of the specification *)
(* ===================================================================== *)

(** C1. The paginated fetch starts at page 1, appends every non-empty
    page to the accumulator, moves on to the next page number and stops
    exactly at the first empty page: on non-empty pages [pages] followed
    by an empty one, both [get_repo_releases] and [get_user_repos] return
    the concatenation of [pages] after requesting the pages
    [1 .. length pages + 1], and leave the later responses untouched.
    For pages of sizes 100, 100 and 37 this is 237 records and 4
    requests. *)
Theorem fetch_stops_at_empty_page
    (username : string) (repo_name : pyval) (pages : list (list pyval))
    (rest : list response) (reqs : list request) (out : list message) :
  Forall (fun p => p <> []) pages ->
  get_repo_releases username repo_name
    {| pending := map page_body pages ++ page_body [] :: rest;
       issued := reqs; console := out |}
  = Ret (concat pages)
      {| pending := rest;
         issued :=
           reqs ++ map (request_of (RepoReleases username repo_name)
                          releases_params)
                       (page_numbers (S (length pages)));
         console := out |}
  /\
  get_user_repos username
    {| pending := map page_body pages ++ page_body [] :: rest;
       issued := reqs; console := out |}
  = Ret (concat pages)
      {| pending := rest;
         issued :=
           reqs ++ map (request_of (UserRepos username) repos_params)
                       (page_numbers (S (length pages)));
         console := out |}.
Proof.
  intros Hne. split.
  - rewrite get_repo_releases_fetch_all.
    now apply fetch_all_until_empty.
  - rewrite get_user_repos_fetch_all.
    now apply fetch_all_until_empty.
Qed.

(** C2. A failed page request ends the pagination loop in the handler,
    which prints the error before it leaves the loop.  The print reads
    the interpolated repository name and error text as markup, and when
    it raises (a [MarkupError] on a name such as "[/x]") the exception
    leaves the fetch: nothing is logged, and the records of the pages
    fetched before the failure are not returned. *)
Theorem fetch_error_print_escapes
    (username : string) (repo_name : pyval) (pages : list (list pyval))
    (e : request_exception) (x : exn) (rest : list response)
    (reqs : list request) (out : list message) :
  Forall (fun p => p <> []) pages ->
  (rendering (ErrorFetchingReleases repo_name e) = Some x ->
   get_repo_releases username repo_name
     {| pending := map page_body pages ++ Failed e :: rest;
        issued := reqs; console := out |}
   = Raise x
       {| pending := rest;
          issued :=
            reqs ++ map (request_of (RepoReleases username repo_name)
                           releases_params)
                        (page_numbers (S (length pages)));
          console := out |})
  /\
  (rendering (ErrorFetchingRepositories e) = Some x ->
   get_user_repos username
     {| pending := map page_body pages ++ Failed e :: rest;
        issued := reqs; console := out |}
   = Raise x
       {| pending := rest;
          issued :=
            reqs ++ map (request_of (UserRepos username) repos_params)
                        (page_numbers (S (length pages)));
          console := out |}).
Proof.
  intros Hne. split; intros Hx.
  - rewrite get_repo_releases_fetch_all.
    rewrite fetch_all_until_failed by exact Hne. now rewrite Hx.
  - rewrite get_user_repos_fetch_all.
    rewrite fetch_all_until_failed by exact Hne. now rewrite Hx.
Qed.

(** C3. [total_downloads] is additive at both levels: the total of an
    analysis is the sum over the releases of their summed asset download
    counts, and the overall total of a scan is the sum of the totals of
    the analyses in its result list. *)
Theorem total_downloads_additive :
  (forall (releases : list pyval) (a : analysis),
      analyze_downloads releases = Ok a ->
      total_downloads a = zsum (map release_downloads releases)) /\
  (forall (username : string) (repos : list pyval) (w w' : world)
          (st : scan_state),
      scan username repos w = Ret st w' ->
      Stats.total_downloads (total_stats st)
      = zsum (map (fun x => total_downloads (snd x))
                (repos_with_releases st))).
Proof.
  split.
  - intros releases a H. apply analyze_downloads_ok in H as [-> _].
    reflexivity.
  - intros username repos w w' st H.
    apply scan_ok in H as (fetched & _ & _ & ->).
    cbn [stats_of Stats.total_downloads]. now rewrite map_map.
Qed.

(** C4. [releases_with_downloads] counts exactly the releases whose
    summed asset download counts are strictly positive; a release whose
    downloads sum to zero is not counted, whether it has assets or not. *)
Theorem releases_with_downloads_counts_positive
    (releases : list pyval) (a : analysis) :
  analyze_downloads releases = Ok a ->
  releases_with_downloads a
  = zcount (fun r => release_downloads r >? 0) releases.
Proof.
  intros H. apply analyze_downloads_ok in H as [-> _]. reflexivity.
Qed.

(** C5. [total_assets] is the sum of the lengths of the asset lists of
    the releases, whatever the download counts, and [asset_details] has
    [total_assets] rows. *)
Theorem total_assets_counts_assets (releases : list pyval) (a : analysis) :
  analyze_downloads releases = Ok a ->
  total_assets a = zsum (map (fun r => zlen (assets_of r)) releases) /\
  zlen (asset_details a) = total_assets a.
Proof.
  intros H. apply analyze_downloads_ok in H as [-> _].
  cbn [total_assets asset_details]. split; [reflexivity |].
  apply zlen_rows_of.
Qed.

(** C6. Every detail row carries the display name of its release: the
    release's [name]; if the release has none, its [tag_name]; if it has
    neither, "Unknown".  The name is resolved for each row, so all the
    rows of a release without name and tag read "Unknown". *)
Theorem release_name_resolved_per_row (releases : list pyval) (a : analysis) :
  analyze_downloads releases = Ok a ->
  map release_name (asset_details a)
  = flat_map (fun r => map (fun _ => display_name r) (assets_of r)) releases
  /\
  forall fields,
    display_name (PDict fields)
    = match Dict.lookup "name" fields, Dict.lookup "tag_name" fields with
      | Some name, _ => name
      | None, Some tag => tag
      | None, None => PStr "Unknown"
      end.
Proof.
  intros H. apply analyze_downloads_ok in H as [-> _].
  cbn [asset_details]. split; [apply release_name_rows_of |].
  intros fields. simpl.
  destruct (Dict.lookup "name" fields); reflexivity.
Qed.

(** C7. The scan skips a repository whose fetched release sequence is
    empty: the result list has one entry for each repository whose
    release sequence is not empty, in scan order, carrying the name of
    the repository and the analysis of its releases, and no other entry;
    the overall statistics are the sums over these entries alone, and
    [repos_with_releases] is the number of repositories whose release
    sequence is not empty. *)
Theorem scan_skips_repos_without_releases
    (username : string) (repos : list pyval) (w w' : world)
    (st : scan_state) :
  scan username repos w = Ret st w' ->
  exists fetched,
    fetch_each username repos w = Ret fetched w' /\
    Forall2 reports (filter has_releases fetched) (repos_with_releases st) /\
    total_stats st = stats_of (map snd (repos_with_releases st)) /\
    Stats.repos_with_releases (total_stats st) = zcount has_releases fetched.
Proof.
  intros H. apply scan_ok in H as (fetched & Hf & Hrep & Hstats).
  exists fetched. repeat split; auto.
  rewrite Hstats. cbn [stats_of Stats.repos_with_releases].
  unfold zcount, zlen. rewrite length_map.
  now rewrite (Forall2_length Hrep).
Qed.

(** C8. An analysis never reports more releases with downloads than
    assets: a release with downloads has at least one asset, so
    [releases_with_downloads <= total_assets] whenever the aggregation
    returns. *)
Theorem releases_with_downloads_le_total_assets
    (releases : list pyval) (a : analysis) :
  analyze_downloads releases = Ok a ->
  releases_with_downloads a <= total_assets a.
Proof.
  intros H. apply analyze_downloads_ok in H as [-> _].
  apply count_le_assets.
Qed.

(** No sequence of releases makes the aggregation return fewer assets
    than releases with downloads. *)
Lemma no_analysis_with_fewer_assets_than_downloaded_releases :
  ~ exists (releases : list pyval) (a : analysis),
      analyze_downloads releases = Ok a /\
      total_assets a < releases_with_downloads a.
Proof.
  intros (releases & a & H & Hlt).
  apply analyze_downloads_ok in H as [-> _].
  cbn [total_assets releases_with_downloads] in Hlt.
  pose proof (count_le_assets releases). lia.
Qed.


(** C10. The detail rows account exactly for the reported total: every
    row's [downloads] is an integer, and their sum is
    [total_downloads]. *)
Theorem asset_details_sum_to_total (releases : list pyval) (a : analysis) :
  analyze_downloads releases = Ok a ->
  Forall (fun row => as_int (downloads row) = Some (row_downloads row))
    (asset_details a) /\
  zsum (map row_downloads (asset_details a)) = total_downloads a.
Proof.
  intros H. apply analyze_downloads_ok in H as [-> Hc].
  cbn [asset_details total_downloads]. split.
  - now apply rows_of_counted.
  - apply row_downloads_rows_of.
Qed.

(* ===================================================================== *)
(** ** The fetch on arbitrary responses *)
(* ===================================================================== *)

Lemma py_iter_err (v : pyval) (e : exn) : py_iter v = Err e -> e = TypeError.
Proof. destruct v; simpl; congruence. Qed.

Lemma appended_inv (body : pyval) :
  appended body = true ->
  py_truthy body = true /\ py_iter body = Ok (page_items body).
Proof.
  unfold appended, page_items. intros H. apply andb_prop in H as [Ht Hi].
  split; [exact Ht |]. destruct (py_iter body); [reflexivity | discriminate].
Qed.

(** Every sequence of responses is of one of three shapes: bodies that
    are appended and then a response that stops the loop; such bodies and
    then a truthy body that is not iterable; such bodies only. *)
Lemma responses_shape (pend : list response) :
  (exists bodies stop rest,
      pend = map Body bodies ++ stop :: rest /\
      forallb appended bodies = true /\ stops stop = true) \/
  (exists bodies bad rest,
      pend = map Body bodies ++ Body bad :: rest /\
      forallb appended bodies = true /\
      py_truthy bad = true /\ py_iter bad = Err TypeError) \/
  (exists bodies,
      pend = map Body bodies /\ forallb appended bodies = true).
Proof.
  induction pend as [| r pend IH].
  - right. right. exists []. split; reflexivity.
  - destruct r as [body | e].
    + destruct (py_truthy body) eqn:Ht.
      * destruct (py_iter body) as [items | e] eqn:Hi.
        -- assert (Ha : appended body = true)
             by (unfold appended; now rewrite Ht, Hi).
           destruct IH as [(bodies & stop & rest & -> & Hb & Hs)
                          | [(bodies & bad & rest & -> & Hb & Hbt & Hbi)
                            | (bodies & -> & Hb)]].
           ++ left. exists (body :: bodies), stop, rest.
              cbn [map app forallb]. now rewrite Ha, Hb.
           ++ right. left. exists (body :: bodies), bad, rest.
              cbn [map app forallb]. now rewrite Ha, Hb.
           ++ right. right. exists (body :: bodies).
              cbn [map forallb]. now rewrite Ha, Hb.
        -- right. left. exists [], body, pend.
           pose proof (py_iter_err _ _ Hi) as ->. repeat split; auto.
      * left. exists [], (Body body), pend. cbn [stops]. rewrite Ht.
        repeat split; auto.
    + left. exists [], (Failed e), pend. repeat split; auto.
Qed.

Section FetchTraceFacts.

Variable endpoint_url : endpoint.
Variable params_of : Z -> list (string * pyval).
Variable report : request_exception -> message.

Local Abbreviation fetch := (fetch_all_pages endpoint_url params_of report).
Local Abbreviation request_at := (request_of endpoint_url params_of).
Local Abbreviation requests_after :=
  (requests_after endpoint_url params_of).
Local Abbreviation fetch_all := (fetch_all endpoint_url params_of report).

(** Appended bodies are consumed one after the other, each by one
    request for the next page number. *)
Lemma fetch_through_bodies (bodies : list pyval) :
  forall fuel page acc rest reqs out,
    forallb appended bodies = true ->
    fetch (length bodies + fuel) (page + 1) acc
      {| pending := map Body bodies ++ rest;
         issued := reqs; console := out |}
    = fetch fuel (page + 1 + zlen bodies) (acc ++ flat_map page_items bodies)
        {| pending := rest;
           issued := reqs ++ requests_after page (length bodies);
           console := out |}.
Proof.
  induction bodies as [| b bodies IH]; intros fuel page acc rest reqs out Hall.
  - simpl. unfold zlen, requests_after. simpl.
    rewrite !app_nil_r, Z.add_0_r. reflexivity.
  - cbn [forallb] in Hall. apply andb_prop in Hall as [Hb Hall].
    apply appended_inv in Hb as [Ht Hi].
    cbn [length Nat.add map app fetch_all_pages].
    unfold bind at 1. unfold http_get. cbn [pending issued console].
    rewrite Ht. cbn [negb]. unfold bind at 1. rewrite Hi. cbn [lift].
    rewrite (IH fuel (page + 1) (acc ++ page_items b) rest _ out Hall).
    rewrite requests_after_cons, <- !app_assoc. cbn [flat_map app].
    replace (page + 1 + 1 + zlen bodies)
      with (page + 1 + zlen (b :: bodies))
      by (unfold zlen; cbn [length]; lia).
    reflexivity.
Qed.

Lemma fetch_all_bodies (bodies : list pyval) rest reqs out :
  forallb appended bodies = true ->
  fetch_all {| pending := map Body bodies ++ rest;
               issued := reqs; console := out |}
  = fetch (length rest) (1 + zlen bodies) (flat_map page_items bodies)
      {| pending := rest;
         issued := reqs ++ map request_at (page_numbers (length bodies));
         console := out |}.
Proof.
  intros Hall. unfold fetch_all. cbn [pending].
  rewrite length_app, length_map.
  change 1 with (0 + 1) at 1.
  rewrite fetch_through_bodies by exact Hall.
  now rewrite requests_after_0.
Qed.

Lemma last_request (n : nat) (reqs : list request) :
  (reqs ++ map request_at (page_numbers n))
    ++ [{| url := endpoint_url; params := params_of (1 + zlen (repeat tt n)) |}]
  = reqs ++ map request_at (page_numbers (S n)).
Proof.
  rewrite page_numbers_S, map_app, <- app_assoc. cbn [map].
  unfold request_of, zlen. rewrite repeat_length.
  replace (1 + Z.of_nat n) with (Z.of_nat (S n)) by lia. reflexivity.
Qed.

(** The loop ends on a response that stops it: it returns, unless the
    print of the error raises. *)
Lemma fetch_all_stops (bodies : list pyval) stop rest reqs out :
  forallb appended bodies = true ->
  stops stop = true ->
  fetch_all {| pending := map Body bodies ++ stop :: rest;
               issued := reqs; console := out |}
  = match stop_failure report stop with
    | None =>
        Ret (flat_map page_items bodies)
          {| pending := rest;
             issued := reqs ++ map request_at
                                 (page_numbers (S (length bodies)));
             console := out ++ stop_message report stop |}
    | Some x =>
        Raise x
          {| pending := rest;
             issued := reqs ++ map request_at
                                 (page_numbers (S (length bodies)));
             console := out |}
    end.
Proof.
  intros Hall Hstop. rewrite fetch_all_bodies by exact Hall.
  rewrite <- last_request. unfold zlen. rewrite repeat_length.
  cbn [length fetch_all_pages]. unfold bind at 1. unfold http_get.
  cbn [pending issued console].
  destruct stop as [body | e]; cbn [stops stop_message stop_failure] in *.
  - rewrite Hstop. unfold ret. now rewrite app_nil_r.
  - unfold bind, print, ret. cbn [pending issued console].
    destruct (rendering (report e)); reflexivity.
Qed.

(** The loop raises on a truthy body that is not iterable. *)
Lemma fetch_all_crashes (bodies : list pyval) bad rest reqs out :
  forallb appended bodies = true ->
  py_truthy bad = true ->
  py_iter bad = Err TypeError ->
  fetch_all {| pending := map Body bodies ++ Body bad :: rest;
               issued := reqs; console := out |}
  = Raise TypeError
      {| pending := rest;
         issued := reqs ++ map request_at (page_numbers (S (length bodies)));
         console := out |}.
Proof.
  intros Hall Ht Hi. rewrite fetch_all_bodies by exact Hall.
  rewrite <- last_request. unfold zlen. rewrite repeat_length.
  cbn [length fetch_all_pages]. unfold bind at 1. unfold http_get.
  cbn [pending issued console]. rewrite Ht. cbn [negb].
  unfold bind. rewrite Hi. reflexivity.
Qed.

(** The loop is blocked once appended bodies are all there is. *)
Lemma fetch_all_starves (bodies : list pyval) reqs out :
  forallb appended bodies = true ->
  fetch_all {| pending := map Body bodies;
               issued := reqs; console := out |}
  = Blocked.
Proof.
  intros Hall. rewrite <- (app_nil_r (map Body bodies)).
  rewrite fetch_all_bodies by exact Hall. reflexivity.
Qed.

Lemma fetch_all_returns_iff (w : world) (result : list pyval) (w' : world) :
  fetch_all w = Ret result w'
  <-> fetch_trace endpoint_url params_of report w result w'.
Proof.
  destruct w as [pend reqs out]. split.
  - intros H.
    destruct (responses_shape pend)
      as [(bodies & stop & rest & -> & Hall & Hstop)
         | [(bodies & bad & rest & -> & Hall & Ht & Hi)
           | (bodies & -> & Hall)]].
    + rewrite fetch_all_stops in H by assumption.
      destruct (stop_failure report stop) eqn:Hf; [discriminate |].
      injection H as <- <-.
      exists bodies, stop. cbn [pending issued console]. repeat split; auto.
    + rewrite fetch_all_crashes in H by assumption. discriminate.
    + rewrite fetch_all_starves in H by assumption. discriminate.
  - intros (bodies & stop & Hp & Hall & Hstop & Hf & -> & Hi & Hc).
    destruct w' as [pend' reqs' out']. cbn [pending issued console] in *.
    subst. rewrite fetch_all_stops by assumption. now rewrite Hf.
Qed.

Lemma fetch_all_blocked_iff (w : world) :
  fetch_all w = Blocked
  <-> exists bodies,
        pending w = map Body bodies /\ forallb appended bodies = true.
Proof.
  destruct w as [pend reqs out]. cbn [pending]. split.
  - intros H.
    destruct (responses_shape pend)
      as [(bodies & stop & rest & -> & Hall & Hstop)
         | [(bodies & bad & rest & -> & Hall & Ht & Hi)
           | (bodies & -> & Hall)]].
    + rewrite fetch_all_stops in H by assumption.
      destruct (stop_failure report stop); discriminate.
    + rewrite fetch_all_crashes in H by assumption. discriminate.
    + exists bodies. split; auto.
  - intros (bodies & -> & Hall). now apply fetch_all_starves.
Qed.

End FetchTraceFacts.

(* ===================================================================== *)
(** ** The aggregation on arbitrary records *)
(* ===================================================================== *)

Lemma ebind_err {A B} (c : except A) (k : A -> except B) (e : exn) :
  ebind c k = Err e -> c = Err e \/ exists a, c = Ok a /\ k a = Err e.
Proof.
  destruct c as [a | e']; simpl; intros H.
  - right. exists a. auto.
  - left. congruence.
Qed.

Lemma py_get_err obj key default e :
  py_get obj key default = Err e -> e = AttributeError.
Proof.
  destruct obj; simpl; try congruence.
  destruct (Dict.lookup key items); discriminate.
Qed.

Lemma py_iadd_err n v e : py_iadd n v = Err e -> e = TypeError.
Proof. unfold py_iadd. destruct (as_int v); congruence. Qed.

Lemma py_len_err v e : py_len v = Err e -> e = TypeError.
Proof. destruct v; simpl; congruence. Qed.

Lemma for_each_err {A S} (body : S -> A -> except S) (P : exn -> Prop) xs :
  (forall s x e, body s x = Err e -> P e) ->
  forall s e, for_each body xs s = Err e -> P e.
Proof.
  intros Hbody. induction xs as [| x xs IH]; simpl; intros s e H.
  - discriminate.
  - apply ebind_err in H as [H | (s1 & _ & H)]; eauto.
Qed.

(** Split a hypothesis [x <- c ;; k = Err e] into its two cases, closing
    the first with the lemma on [c]. *)
Tactic Notation "ebind_err_inv" hyp(H) "by" tactic(tac) :=
  apply ebind_err in H as [H | (? & _ & H)]; [solve [tac] |].

Lemma asset_body_err release st asset e :
  asset_body release st asset = Err e -> e <> KeyError.
Proof.
  destruct st as [[rd td] rows]. unfold asset_body. intros H.
  ebind_err_inv H by (apply py_get_err in H; congruence).
  ebind_err_inv H by (apply py_iadd_err in H; congruence).
  ebind_err_inv H by (apply py_iadd_err in H; congruence).
  ebind_err_inv H by (apply py_get_err in H; congruence).
  ebind_err_inv H by (apply py_get_err in H; congruence).
  ebind_err_inv H by (apply py_get_err in H; congruence).
  ebind_err_inv H by (apply py_get_err in H; congruence).
  ebind_err_inv H by (apply py_get_err in H; congruence).
  discriminate.
Qed.

Lemma release_body_err st release e :
  release_body st release = Err e -> e <> KeyError.
Proof.
  destruct st as [[[td ta] rwd] rows]. unfold release_body. intros H.
  ebind_err_inv H by (apply py_get_err in H; congruence).
  ebind_err_inv H by (apply py_len_err in H; congruence).
  ebind_err_inv H by (apply py_get_err in H; congruence).
  ebind_err_inv H by (apply py_iter_err in H; congruence).
  ebind_err_inv H by
    (apply (for_each_err _ (fun e => e <> KeyError)) in H;
     [exact H | intros; eapply asset_body_err; eassumption]).
  destruct x3 as [[rd1 td1] rows1]. discriminate.
Qed.

(** An asset on which the body of the inner loop returns is a dict with
    an integer download count. *)
Lemma asset_body_accepts release st asset st' :
  asset_body release st asset = Ok st' -> asset_ok asset = true.
Proof.
  destruct st as [[rd td] rows]. unfold asset_body. intros H.
  ebind_inv H as count Hcount.
  ebind_inv H as rd1 Hrd. apply py_iadd_ok in Hrd as (z & Hz & _).
  destruct asset; simpl in Hcount; try discriminate. simpl.
  destruct (Dict.lookup "download_count" items) as [v |]; [| reflexivity].
  injection Hcount as <-. now rewrite Hz.
Qed.

Lemma asset_loop_accepts release items : forall st st',
  for_each (asset_body release) items st = Ok st' ->
  forallb asset_ok items = true.
Proof.
  induction items as [| asset items IH]; simpl; intros st st' H;
    [reflexivity |].
  ebind_inv H as st1 Hbody.
  apply asset_body_accepts in Hbody. rewrite Hbody. simpl. eauto.
Qed.

(** A string is never an asset. *)
Lemma asset_loop_strings release (names : list string) st st' :
  for_each (asset_body release) (map PStr names) st = Ok st' -> names = [].
Proof.
  destruct names as [| name names]; [reflexivity |]. simpl. intros H.
  ebind_inv H as st1 Hbody. apply asset_body_accepts in Hbody.
  discriminate.
Qed.

Lemma chars_strings (s : string) :
  exists names, chars s = map PStr names /\ (names = [] -> s = "").
Proof.
  induction s as [| c s IH].
  - exists []. auto.
  - destruct IH as (names & Hs & _).
    exists (String c EmptyString :: names). simpl. rewrite Hs.
    split; [reflexivity | discriminate].
Qed.

Lemma keys_nil (items : list (string * pyval)) :
  Dict.keys items = [] -> items = [].
Proof.
  unfold Dict.keys. destruct items as [| [k v] items]; [reflexivity |].
  intros H. exfalso.
  assert (Hin : In k (rev (nodup string_dec (rev (map fst ((k, v) :: items)))))).
  { apply in_rev. rewrite rev_involutive. apply nodup_In.
    apply -> in_rev. now left. }
  rewrite H in Hin. exact Hin.
Qed.

Lemma release_body_accepts st release st' :
  release_body st release = Ok st' -> release_accepts release = true.
Proof.
  destruct st as [[[td ta] rwd] rows]. unfold release_body. intros H.
  ebind_inv H as assets Hassets.
  apply py_get_ok in Hassets as [-> [fields ->]].
  ebind_inv H as n Hlen.
  ebind_inv H as assets Hassets. apply py_get_ok in Hassets as [-> _].
  ebind_inv H as items Hiter.
  ebind_inv H as st1 Hloop.
  unfold release_accepts.
  destruct (field_or (PDict fields) "assets" (PList [])) as [| | | s | l | d];
    try discriminate; simpl in Hiter; injection Hiter as <-.
  - destruct (chars_strings s) as (names & Hs & Hnil). rewrite Hs in Hloop.
    apply asset_loop_strings in Hloop. now rewrite (Hnil Hloop).
  - eapply asset_loop_accepts. exact Hloop.
  - apply asset_loop_strings in Hloop.
    apply keys_nil in Hloop. now subst.
Qed.

Lemma release_body_returns st release :
  release_accepts release = true -> exists st', release_body st release = Ok st'.
Proof.
  destruct st as [[[td ta] rwd] rows].
  destruct release as [| | | | | fields]; simpl; try discriminate.
  unfold release_body, py_get.
  destruct (Dict.lookup "assets" fields) as [v |]; simpl.
  - destruct v as [| | | s | assets | d]; try discriminate.
    + intros Hs. apply String.eqb_eq in Hs as ->. eexists; reflexivity.
    + intros Hall. simpl.
      destruct (for_each_total (asset_body (PDict fields)) assets) with
        (s := (0, td, rows)) as [[[rd1 td1] rows1] ->].
      * intros s x Hx. apply asset_body_total.
        rewrite forallb_forall in Hall. now apply Hall.
      * simpl. eexists; reflexivity.
    + destruct d; [| discriminate]. intros _. eexists; reflexivity.
  - intros _. eexists; reflexivity.
Qed.

Lemma release_loop_accepts releases : forall st st',
  for_each release_body releases st = Ok st' ->
  forallb release_accepts releases = true.
Proof.
  induction releases as [| r releases IH]; simpl; intros st st' H;
    [reflexivity |].
  ebind_inv H as st1 Hbody.
  apply release_body_accepts in Hbody. rewrite Hbody. simpl. eauto.
Qed.

(** The aggregation returns exactly on accepted releases. *)
Lemma analyze_downloads_accepts (releases : list pyval) :
  forallb release_accepts releases = true
  <-> exists a, analyze_downloads releases = Ok a.
Proof.
  unfold analyze_downloads. split.
  - intros Hall.
    destruct (for_each_total release_body releases) with
      (s := (0, 0, 0, @nil asset_row)) as [[[[td ta] rwd] rows] ->].
    + intros s x Hx. apply release_body_returns.
      rewrite forallb_forall in Hall. now apply Hall.
    + simpl. eexists; reflexivity.
  - intros [a H]. ebind_inv H as st Hloop.
    eapply release_loop_accepts. exact Hloop.
Qed.

Lemma zcount_app {A} (p : A -> bool) (xs ys : list A) :
  zcount p (xs ++ ys) = zcount p xs + zcount p ys.
Proof. unfold zcount. now rewrite filter_app, zlen_app. Qed.

Lemma zcount_bounds {A} (p : A -> bool) (xs : list A) :
  0 <= zcount p xs <= zlen xs.
Proof.
  unfold zcount, zlen. pose proof (filter_length_le p xs). lia.
Qed.

Lemma zsum_zlen_nonneg {A B} (f : A -> list B) (xs : list A) :
  0 <= zsum (map (fun x => zlen (f x)) xs).
Proof.
  induction xs as [| x xs IH]; simpl; [lia |]. unfold zlen at 1. lia.
Qed.

(** The closed form of the analysis of two batches put together. *)
Lemma closed_form_app (xs ys : list pyval) :
  {| total_downloads := zsum (map release_downloads (xs ++ ys));
     total_assets := zsum (map (fun r => zlen (assets_of r)) (xs ++ ys));
     releases_with_downloads :=
       zcount (fun r => release_downloads r >? 0) (xs ++ ys);
     total_releases := zlen (xs ++ ys);
     asset_details := rows_of (xs ++ ys) |}
  = merge
      {| total_downloads := zsum (map release_downloads xs);
         total_assets := zsum (map (fun r => zlen (assets_of r)) xs);
         releases_with_downloads :=
           zcount (fun r => release_downloads r >? 0) xs;
         total_releases := zlen xs;
         asset_details := rows_of xs |}
      {| total_downloads := zsum (map release_downloads ys);
         total_assets := zsum (map (fun r => zlen (assets_of r)) ys);
         releases_with_downloads :=
           zcount (fun r => release_downloads r >? 0) ys;
         total_releases := zlen ys;
         asset_details := rows_of ys |}.
Proof.
  unfold merge, rows_of. cbn [total_downloads total_assets
    releases_with_downloads total_releases asset_details].
  now rewrite !map_app, !zsum_app, zcount_app, zlen_app, flat_map_app.
Qed.

Lemma downloads_nonneg (releases : list pyval) :
  (forall r asset, In r releases -> In asset (assets_of r) ->
                   0 <= download_count_of asset) ->
  Forall (fun r => 0 <= release_downloads r) releases.
Proof.
  intros Hpos. apply Forall_forall. intros r Hr.
  unfold release_downloads.
  assert (Hall : forall asset, In asset (assets_of r) ->
                               0 <= download_count_of asset) by eauto.
  induction (assets_of r) as [| asset assets IH]; simpl; [lia |].
  assert (0 <= download_count_of asset) by (apply Hall; now left).
  assert (0 <= zsum (map download_count_of assets))
    by (apply IH; intros; apply Hall; now right).
  lia.
Qed.

Lemma zsum_zero_iff_none_positive (releases : list pyval) :
  Forall (fun r => 0 <= release_downloads r) releases ->
  0 <= zsum (map release_downloads releases) /\
  (zsum (map release_downloads releases) = 0
   <-> zcount (fun r => release_downloads r >? 0) releases = 0).
Proof.
  induction 1 as [| r releases Hr _ [IHpos [I1 I2]]].
  - unfold zcount, zlen. simpl. split; [lia | tauto].
  - rewrite zcount_cons. cbn [map zsum fold_right].
    fold (zsum (map release_downloads releases)).
    pose proof (zcount_bounds (fun r => release_downloads r >? 0) releases)
      as Hb.
    destruct (release_downloads r >? 0) eqn:Hgt.
    + apply Z.gtb_lt in Hgt. split; [lia |]. split; lia.
    + assert (Hz : release_downloads r = 0).
      { destruct (Z.gtb_spec (release_downloads r) 0); [discriminate | lia]. }
      split; [lia |]. split; intros Hx.
      * assert (E : zsum (map release_downloads releases) = 0) by lia.
        apply I1 in E. lia.
      * assert (E : zcount (fun r => release_downloads r >? 0) releases = 0)
          by lia.
        apply I2 in E. lia.
Qed.

(* ===================================================================== *)
(** ** The scan, repository by repository *)
(* ===================================================================== *)

Lemma for_each_run_app {A S} (body : S -> A -> M S) (xs ys : list A) :
  forall s w,
    for_each_run body (xs ++ ys) s w
    = bind (for_each_run body xs s) (for_each_run body ys) w.
Proof.
  induction xs as [| x xs IH]; intros s w; [reflexivity |].
  cbn [app for_each_run]. unfold bind.
  destruct (body s x w) as [s1 w1 | |]; [| reflexivity | reflexivity].
  rewrite IH. reflexivity.
Qed.

Lemma get_repo_releases_stops username repo_name stop rest reqs out :
  stops stop = true ->
  stop_failure (ErrorFetchingReleases repo_name) stop = None ->
  get_repo_releases username repo_name
    {| pending := stop :: rest; issued := reqs; console := out |}
  = Ret []
      {| pending := rest;
         issued := reqs ++ [request_of (RepoReleases username repo_name)
                              releases_params 1];
         console := out ++ stop_message (ErrorFetchingReleases repo_name)
                             stop |}.
Proof.
  intros Hstop Hf. rewrite get_repo_releases_fetch_all.
  rewrite (fetch_all_stops _ _ _ [] stop rest reqs out eq_refl Hstop).
  now rewrite Hf.
Qed.

Lemma get_user_repos_stops username stop rest reqs out :
  stops stop = true ->
  stop_failure ErrorFetchingRepositories stop = None ->
  get_user_repos username
    {| pending := stop :: rest; issued := reqs; console := out |}
  = Ret []
      {| pending := rest;
         issued := reqs ++ [request_of (UserRepos username) repos_params 1];
         console := out ++ stop_message ErrorFetchingRepositories stop |}.
Proof.
  intros Hstop Hf. rewrite get_user_repos_fetch_all.
  rewrite (fetch_all_stops _ _ _ [] stop rest reqs out eq_refl Hstop).
  now rewrite Hf.
Qed.

(** A fetch that returns has issued at least one request. *)
Lemma get_repo_releases_requests username repo_name w releases w' :
  get_repo_releases username repo_name w = Ret releases w' ->
  (S (length (issued w)) <= length (issued w'))%nat.
Proof.
  rewrite get_repo_releases_fetch_all. intros H.
  apply fetch_all_returns_iff in H
    as (bodies & stop & _ & _ & _ & _ & _ & Hreqs & _).
  rewrite Hreqs, length_app, length_map.
  unfold page_numbers. rewrite length_map, length_seq. lia.
Qed.

Lemma scan_loop_requests username repos : forall st0 w st w',
  for_each_run (scan_body username) repos st0 w = Ret st w' ->
  (length (issued w) + length repos <= length (issued w'))%nat.
Proof.
  induction repos as [| repo repos IH]; intros st0 w st w' H.
  - injection H as _ <-. simpl. lia.
  - cbn [for_each_run] in H. unfold bind at 1 in H.
    destruct (scan_body username st0 repo w) as [st1 w1 | |] eqn:Hbody;
      try discriminate.
    apply scan_body_ok in Hbody as (repo_name & releases & _ & Hfetch & _).
    apply get_repo_releases_requests in Hfetch.
    apply IH in H. cbn [length]. lia.
Qed.

Lemma insert_le_all {A} (key : A -> Z) (x : A) (l : list A) :
  Forall (fun y => key x <= key y) l -> insert key x l = x :: l.
Proof.
  destruct l as [| y l]; [reflexivity |]. intros Hall.
  inversion Hall as [| ? ? Hy _]; subst. simpl.
  apply Z.leb_le in Hy. now rewrite Hy.
Qed.

Lemma stable_sort_sorted_id {A} (key : A -> Z) (l : list A) :
  StronglySorted (fun x y => key x <= key y) l -> stable_sort key l = l.
Proof.
  induction 1 as [| x l Hs IH Hall]; [reflexivity |].
  cbn [stable_sort fold_right]. fold (stable_sort key l).
  rewrite IH. now apply insert_le_all.
Qed.

Lemma StronglySorted_rev_flip {A} (R : A -> A -> Prop) (l : list A) :
  StronglySorted R l -> StronglySorted (fun x y => R y x) (rev l).
Proof.
  induction 1 as [| x l Hs IH Hall]; simpl; [constructor |].
  apply StronglySorted_snoc; [exact IH |].
  apply Forall_rev. exact Hall.
Qed.

Lemma list_sort_reverse_id {A} (key : A -> Z) (l : list A) :
  StronglySorted (fun x y => key y <= key x) l -> list_sort key true l = l.
Proof.
  intros Hs. unfold list_sort.
  rewrite stable_sort_sorted_id; [apply rev_involutive |].
  exact (StronglySorted_rev_flip _ l Hs).
Qed.

(* ===================================================================== *)
(** ** Further properties of the code *)
(* ===================================================================== *)

(** X1. A fetch returns exactly when, after any number of truthy
    iterable bodies, a response arrives that stops the loop, a failed
    request or a falsy body (an empty list, but also null, 0, false, ""
    or an empty object), and the print of the error, if the request
    failed, does not raise.  It then returns the items of the bodies
    before that response, has requested the pages 1, 2, ... once each,
    one per response consumed, and has printed the error message if the
    stop was a failure and nothing otherwise. *)
Theorem fetch_returns_iff_stopped
    (username : string) (repo_name : pyval) (w : world)
    (result : list pyval) (w' : world) :
  (get_repo_releases username repo_name w = Ret result w'
   <-> fetch_trace (RepoReleases username repo_name) releases_params
         (ErrorFetchingReleases repo_name) w result w') /\
  (get_user_repos username w = Ret result w'
   <-> fetch_trace (UserRepos username) repos_params
         ErrorFetchingRepositories w result w').
Proof.
  split.
  - rewrite get_repo_releases_fetch_all. apply fetch_all_returns_iff.
  - rewrite get_user_repos_fetch_all. apply fetch_all_returns_iff.
Qed.

(** X2. A truthy body that is not iterable (a non-zero number or true)
    makes the fetch raise a [TypeError], which the handler of the loop
    does not catch: the exception leaves the fetch right after the
    request that was answered by that body, and nothing is printed. *)
Theorem fetch_raises_on_not_iterable
    (username : string) (repo_name : pyval) (bodies : list pyval)
    (bad : pyval) (rest : list response) (reqs : list request)
    (out : list message) :
  forallb appended bodies = true ->
  py_truthy bad = true ->
  py_iter bad = Err TypeError ->
  get_repo_releases username repo_name
    {| pending := map Body bodies ++ Body bad :: rest;
       issued := reqs; console := out |}
  = Raise TypeError
      {| pending := rest;
         issued :=
           reqs ++ map (request_of (RepoReleases username repo_name)
                          releases_params)
                       (page_numbers (S (length bodies)));
         console := out |}
  /\
  get_user_repos username
    {| pending := map Body bodies ++ Body bad :: rest;
       issued := reqs; console := out |}
  = Raise TypeError
      {| pending := rest;
         issued :=
           reqs ++ map (request_of (UserRepos username) repos_params)
                       (page_numbers (S (length bodies)));
         console := out |}.
Proof.
  intros Hall Ht Hi. split.
  - rewrite get_repo_releases_fetch_all. now apply fetch_all_crashes.
  - rewrite get_user_repos_fetch_all. now apply fetch_all_crashes.
Qed.

(** X3. A fetch never ends on its own while the pages keep coming: it is
    blocked, waiting for the next response, exactly when every response
    there is is a truthy iterable body.  There is no bound on the number
    of pages. *)
Theorem fetch_blocked_iff_no_stop
    (username : string) (repo_name : pyval) (w : world) :
  (get_repo_releases username repo_name w = Blocked
   <-> exists bodies,
         pending w = map Body bodies /\ forallb appended bodies = true) /\
  (get_user_repos username w = Blocked
   <-> exists bodies,
         pending w = map Body bodies /\ forallb appended bodies = true).
Proof.
  split.
  - rewrite get_repo_releases_fetch_all. apply fetch_all_blocked_iff.
  - rewrite get_user_repos_fetch_all. apply fetch_all_blocked_iff.
Qed.

(** X4. The aggregation returns on accepted releases: when every
    release is a dict, and its assets, when present, are a list of dicts
    whose download count, when present, is an integer (or an empty string
    or object), it does not raise.  Missing fields never make it raise. *)
Theorem analyze_downloads_returns_on_accepted (releases : list pyval) :
  forallb release_accepts releases = true ->
  exists a, analyze_downloads releases = Ok a.
Proof. apply analyze_downloads_accepts. Qed.

(** X5. Analysing two batches one after the other is analysing them
    together: the aggregation returns on [xs ++ ys] exactly when it
    returns on [xs] and on [ys], and then the numbers are the sums and
    the detail rows of [ys] follow those of [xs]. *)
Theorem analyze_downloads_app (xs ys : list pyval) (a : analysis) :
  analyze_downloads (xs ++ ys) = Ok a
  <-> exists a1 a2,
        analyze_downloads xs = Ok a1 /\
        analyze_downloads ys = Ok a2 /\
        a = merge a1 a2.
Proof.
  split.
  - intros H.
    assert (Hacc : forallb release_accepts (xs ++ ys) = true)
      by (apply analyze_downloads_accepts; eauto).
    rewrite forallb_app in Hacc. apply andb_prop in Hacc as [Hx Hy].
    apply analyze_downloads_accepts in Hx as [a1 H1].
    apply analyze_downloads_accepts in Hy as [a2 H2].
    exists a1, a2. repeat split; auto.
    apply analyze_downloads_ok in H as [-> _].
    apply analyze_downloads_ok in H1 as [-> _].
    apply analyze_downloads_ok in H2 as [-> _].
    apply closed_form_app.
  - intros (a1 & a2 & H1 & H2 & ->).
    assert (Hacc : forallb release_accepts (xs ++ ys) = true).
    { rewrite forallb_app.
      rewrite (proj2 (analyze_downloads_accepts xs)) by eauto.
      rewrite (proj2 (analyze_downloads_accepts ys)) by eauto.
      reflexivity. }
    apply analyze_downloads_accepts in Hacc as [a H]. rewrite H. f_equal.
    apply analyze_downloads_ok in H as [-> _].
    apply analyze_downloads_ok in H1 as [-> _].
    apply analyze_downloads_ok in H2 as [-> _].
    apply closed_form_app.
Qed.

(** X6. The detail rows are the assets in encounter order, release by
    release, each with its release's display name, its name ("Unknown"
    when missing), its download count (0 when missing), its size (0 when
    missing) and its content type ("Unknown" when missing). *)
Theorem asset_details_rows (releases : list pyval) (a : analysis) :
  analyze_downloads releases = Ok a ->
  asset_details a = rows_of releases.
Proof.
  intros H. apply analyze_downloads_ok in H as [-> _]. reflexivity.
Qed.

(** X7. On accepted releases that have no assets, in particular on no
    release at all, the aggregation returns zero downloads, zero assets,
    zero releases with downloads and no detail row; [total_releases]
    still counts the releases. *)
Theorem analyze_downloads_without_assets (releases : list pyval) :
  forallb release_accepts releases = true ->
  (forall r, In r releases -> assets_of r = []) ->
  analyze_downloads releases
  = Ok {| total_downloads := 0;
          total_assets := 0;
          releases_with_downloads := 0;
          total_releases := zlen releases;
          asset_details := [] |}.
Proof.
  intros Hacc Hnone.
  apply analyze_downloads_accepts in Hacc as [a H]. rewrite H. f_equal.
  apply analyze_downloads_ok in H as [-> _].
  assert (Hz : zsum (map release_downloads releases) = 0 /\
               zsum (map (fun r => zlen (assets_of r)) releases) = 0 /\
               zcount (fun r => release_downloads r >? 0) releases = 0 /\
               rows_of releases = []).
  { induction releases as [| r releases IH].
    - repeat split.
    - destruct IH as (I1 & I2 & I3 & I4); [intros; apply Hnone; now right |].
      assert (Hr : assets_of r = []) by (apply Hnone; now left).
      assert (Hd : release_downloads r = 0)
        by (unfold release_downloads; now rewrite Hr).
      rewrite zcount_cons, Hd, I3. cbn [map rows_of flat_map].
      fold (rows_of releases). rewrite Hd, Hr, I4.
      unfold zsum in *. cbn [fold_right map]. rewrite I1, I2.
      repeat split. }
  destruct Hz as (-> & -> & -> & ->). reflexivity.
Qed.

(** X8. An analysis counts every release of the batch in
    [total_releases]; its [releases_with_downloads] lies between 0 and
    [total_releases], and its [total_assets] is not negative. *)
Theorem analysis_bounds (releases : list pyval) (a : analysis) :
  analyze_downloads releases = Ok a ->
  total_releases a = zlen releases /\
  0 <= releases_with_downloads a <= total_releases a /\
  0 <= total_assets a.
Proof.
  intros H. apply analyze_downloads_ok in H as [-> _].
  cbn [total_releases releases_with_downloads total_assets].
  split; [reflexivity |]. split.
  - apply zcount_bounds.
  - apply zsum_zlen_nonneg.
Qed.

(** X9. When no download count is negative, [total_downloads] is not
    negative, and it is zero exactly when no release has downloads. *)
Theorem no_downloads_iff_no_release_with_downloads
    (releases : list pyval) (a : analysis) :
  analyze_downloads releases = Ok a ->
  (forall r asset, In r releases -> In asset (assets_of r) ->
                   0 <= download_count_of asset) ->
  0 <= total_downloads a /\
  (total_downloads a = 0 <-> releases_with_downloads a = 0).
Proof.
  intros H Hpos. apply analyze_downloads_ok in H as [-> _].
  cbn [total_downloads releases_with_downloads].
  apply zsum_zero_iff_none_positive, downloads_nonneg, Hpos.
Qed.


Lemma reports_have_releases fetched results :
  Forall2 reports (filter has_releases fetched) results ->
  Forall (fun x => 1 <= total_releases (snd x)) results.
Proof.
  remember (filter has_releases fetched) as kept eqn:Hkept.
  assert (Hall : Forall (fun f => has_releases f = true) kept).
  { subst kept. apply Forall_forall. intros f Hf.
    now apply filter_In in Hf. }
  clear Hkept. intros Hrep.
  induction Hrep as [| f x kept results [_ Ha] _ IH]; constructor.
  - apply analyze_downloads_ok in Ha as [-> _]. cbn [total_releases].
    inversion Hall as [| ? ? Hf _]; subst.
    unfold has_releases in Hf. unfold zlen.
    destruct (snd f); [discriminate | simpl; lia].
  - apply IH. now inversion Hall.
Qed.

(** X11. Every entry of the result list of a scan analyses at least one
    release: for a scanned repository the early return of
    [display_results], taken when [total_releases] is 0, is never
    taken. *)
Theorem scanned_repos_have_releases
    (username : string) (repos : list pyval) (w w' : world)
    (st : scan_state) :
  scan username repos w = Ret st w' ->
  Forall (fun entry => 1 <= total_releases (snd entry))
    (repos_with_releases st).
Proof.
  intros H. apply scan_ok in H as (fetched & _ & Hrep & _).
  eapply reports_have_releases. exact Hrep.
Qed.

(* ===================================================================== *)
(** ** The report *)
(* ===================================================================== *)

Lemma bind_ret {A B} (c : M A) (k : A -> M B) w b w' :
  bind c k w = Ret b w' ->
  exists a w1, c w = Ret a w1 /\ k a w1 = Ret b w'.
Proof.
  unfold bind. destruct (c w) as [a w1 | e w1 |]; try discriminate.
  intros H. now exists a, w1.
Qed.

Lemma print_ret m w u w' :
  print m w = Ret u w' -> rendering m = None /\ w' = printed m w.
Proof.
  unfold print, printed. destruct (rendering m); [discriminate |].
  intros H. injection H as _ <-. now split.
Qed.

(** A display of [results] that returns has printed the results of each
    entry with releases, in order. *)
Lemma display_all_ret (results : list (pyval * analysis)) : forall w w',
  Forall (fun x => 1 <= total_releases (snd x)) results ->
  for_each_run (fun _ x => display_results (fst x) (snd x)) results tt w
  = Ret tt w' ->
  pending w' = pending w /\ issued w' = issued w /\
  console w' = console w
               ++ map (fun x => RepositoryResults (fst x) (snd x)) results.
Proof.
  induction results as [| x results IH]; intros w w' Hall Hrun.
  - cbn in Hrun. injection Hrun as <-. now rewrite app_nil_r.
  - inversion Hall as [| ? ? Hx Hrest]; subst.
    cbn [for_each_run] in Hrun.
    apply bind_ret in Hrun as ([] & w1 & Hshow & Hrun).
    unfold display_results in Hshow.
    assert (Hnz : (total_releases (snd x) =? 0) = false)
      by (apply Z.eqb_neq; lia).
    rewrite Hnz in Hshow. apply print_ret in Hshow as [_ ->].
    apply IH in Hrun as (Hp & Hi & Hc); [| exact Hrest].
    rewrite Hp, Hi, Hc. cbn [printed pending issued console map].
    now rewrite <- app_assoc.
Qed.

(** X12. What a completed run has printed.  When [run_analysis] returns,
    the repository list was fetched after the opening message.  If it
    came back empty, the run ended with the failure message.  Otherwise
    the scan returned, and after it the run printed, without issuing a
    request, the overall statistics, then, if some repository has
    releases, the details header and the results of each of them in the
    order of [sort_by_downloads], then the warning that no download was
    found exactly when the overall total is 0. *)
Theorem run_analysis_report username w w' :
  run_analysis username w = Ret tt w' ->
  exists repos w1,
    get_user_repos username (printed (AnalyzingUser username) w)
    = Ret repos w1 /\
    match repos with
    | [] => w' = printed FailedToFetchRepositories w1
    | _ :: _ =>
        exists st w2,
          scan username repos (printed (FoundRepositories (zlen repos)) w1)
          = Ret st w2 /\
          pending w' = pending w2 /\ issued w' = issued w2 /\
          console w' = console w2 ++ report_of st
    end.
Proof.
  unfold run_analysis. intros Hrun.
  apply bind_ret in Hrun as ([] & w0 & Hhello & Hrun).
  apply print_ret in Hhello as [_ ->].
  apply bind_ret in Hrun as (repos & w1 & Hrepos & Hrun).
  exists repos, w1. split; [exact Hrepos |].
  destruct repos as [| r repos'].
  - now apply print_ret in Hrun as [_ ->].
  - set (repos := r :: repos') in *.
    apply bind_ret in Hrun as ([] & w1' & Hfound & Hrun).
    apply print_ret in Hfound as [_ ->].
    apply bind_ret in Hrun as (st & w2 & Hscan & Hrun).
    exists st, w2. split; [exact Hscan |].
    apply scan_ok in Hscan as (fetched & _ & Hrep & _).
    apply reports_have_releases in Hrep.
    apply bind_ret in Hrun as ([] & w3 & Hstats & Hrun).
    apply print_ret in Hstats as [_ ->].
    apply bind_ret in Hrun as ([] & w4 & Hdetails & Hwarn).
    unfold report_of.
    assert (Hw4 : pending w4 = pending w2 /\ issued w4 = issued w2 /\
                  console w4
                  = console w2
                    ++ [OverallStatistics (total_stats st)]
                    ++ match repos_with_releases st with
                       | [] => []
                       | _ :: _ =>
                           DetailsByRepository
                           :: map (fun x => RepositoryResults (fst x) (snd x))
                                (sort_by_downloads (repos_with_releases st))
                       end).
    { destruct (repos_with_releases st) as [| x results] eqn:Hres.
      - injection Hdetails as <-. cbn [printed pending issued console].
        now rewrite app_nil_r.
      - apply bind_ret in Hdetails as ([] & w5 & Hhead & Hdetails).
        apply print_ret in Hhead as [_ ->].
        apply display_all_ret in Hdetails as (Hp & Hi & Hc).
        + rewrite Hp, Hi, Hc. cbn [printed pending issued console].
          rewrite <- !app_assoc. now cbn [app].
        + unfold sort_by_downloads.
          eapply Permutation_Forall;
            [apply list_sort_reverse_perm | exact Hrep]. }
    destruct Hw4 as (Hp & Hi & Hc).
    destruct (Stats.total_downloads (total_stats st) =? 0).
    + apply print_ret in Hwarn as [_ ->].
      cbn [printed pending issued console]. rewrite Hp, Hi, Hc.
      now rewrite <- ?app_assoc.
    + injection Hwarn as <-. rewrite Hp, Hi, Hc.
      now rewrite app_nil_r.
Qed.

(** X13. When the first request for the repository list fails, or is
    answered by a falsy body, and the prints do not raise, the run issues
    that one request, prints the error if there was one and the failure
    message, and ends: no release is requested and no statistics are
    printed. *)
Theorem run_analysis_without_repos
    (username : string) (stop : response) (rest : list response)
    (reqs : list request) (out : list message) :
  stops stop = true ->
  rendering (AnalyzingUser username) = None ->
  stop_failure ErrorFetchingRepositories stop = None ->
  rendering FailedToFetchRepositories = None ->
  run_analysis username
    {| pending := stop :: rest; issued := reqs; console := out |}
  = Ret tt
      {| pending := rest;
         issued := reqs ++ [request_of (UserRepos username) repos_params 1];
         console :=
           out ++ [AnalyzingUser username]
               ++ stop_message ErrorFetchingRepositories stop
               ++ [FailedToFetchRepositories] |}.
Proof.
  intros Hstop Huser Hf Hfailed.
  unfold run_analysis. unfold bind at 1. unfold print at 1. rewrite Huser.
  cbn [pending issued console]. unfold bind at 1.
  rewrite get_user_repos_stops by assumption.
  unfold print. rewrite Hfailed.
  cbn [pending issued console]. now rewrite <- !app_assoc.
Qed.

(** X14. A repository whose first release request fails, or is answered
    by a falsy body, is passed over when the print of the error does not
    raise: it costs that one request, leaves the statistics and the
    result list as they are, prints the error if there was one, and the
    scan goes on with the next repository. *)
Theorem scan_passes_over_failed_repo
    (username : string) (repo : pyval) (repos : list pyval)
    (repo_name : pyval) (st : scan_state) (stop : response)
    (rest : list response) (reqs : list request) (out : list message) :
  py_getitem repo "name" = Ok repo_name ->
  stops stop = true ->
  stop_failure (ErrorFetchingReleases repo_name) stop = None ->
  for_each_run (scan_body username) (repo :: repos) st
    {| pending := stop :: rest; issued := reqs; console := out |}
  = for_each_run (scan_body username) repos st
      {| pending := rest;
         issued := reqs ++ [request_of (RepoReleases username repo_name)
                              releases_params 1];
         console := out ++ stop_message (ErrorFetchingReleases repo_name)
                             stop |}.
Proof.
  intros Hname Hstop Hf. cbn [for_each_run]. unfold bind at 1.
  unfold scan_body. unfold bind at 1. rewrite Hname. cbn [lift].
  unfold bind at 1. rewrite get_repo_releases_stops by assumption.
  reflexivity.
Qed.

(** X15. When a release request fails after at least one page of
    releases and the print of the error does not raise, the repository
    stays in the results with the statistics of the pages fetched before
    the failure: the releases of the later pages are silently missing
    from the report, apart from the error message. *)
Theorem scan_keeps_partial_releases
    (username : string) (repo repo_name : pyval) (st : scan_state)
    (pages : list (list pyval)) (a : analysis) (e : request_exception)
    (rest : list response) (reqs : list request) (out : list message) :
  py_getitem repo "name" = Ok repo_name ->
  pages <> [] ->
  Forall (fun p => p <> []) pages ->
  analyze_downloads (concat pages) = Ok a ->
  rendering (ErrorFetchingReleases repo_name e) = None ->
  scan_body username st repo
    {| pending := map page_body pages ++ Failed e :: rest;
       issued := reqs; console := out |}
  = Ret (fold_in st repo_name a)
      {| pending := rest;
         issued :=
           reqs ++ map (request_of (RepoReleases username repo_name)
                          releases_params)
                       (page_numbers (S (length pages)));
         console := out ++ [ErrorFetchingReleases repo_name e] |}.
Proof.
  intros Hname Hpages Hne Ha Hprint. unfold scan_body. unfold bind at 1.
  rewrite Hname. cbn [lift]. unfold bind at 1.
  rewrite get_repo_releases_fetch_all.
  rewrite fetch_all_until_failed by exact Hne. rewrite Hprint.
  destruct pages as [| p pages]; [congruence |].
  inversion Hne as [| ? ? Hp _]; subst.
  destruct p as [| r p]; [congruence |].
  cbn [concat app] in *. unfold bind. rewrite Ha. reflexivity.
Qed.

(** X16. A repository record from which the name cannot be read (a dict
    without "name" raises [KeyError], any other value [TypeError]) ends
    the scan with that exception, right after the repositories before
    it: no request is issued for it or for the repositories after it. *)
Theorem scan_aborts_on_unnamed_repo
    (username : string) (before after : list pyval) (repo : pyval)
    (e : exn) (w w1 : world) (st1 : scan_state) :
  scan username before w = Ret st1 w1 ->
  py_getitem repo "name" = Err e ->
  scan username (before ++ repo :: after) w = Raise e w1.
Proof.
  unfold scan. intros Hbefore Hname.
  rewrite for_each_run_app. unfold bind at 1. rewrite Hbefore.
  cbn [for_each_run]. unfold bind at 1. unfold scan_body.
  unfold bind at 1. rewrite Hname. reflexivity.
Qed.


(** X18. The exit code of [main] is 1 exactly when the number of
    arguments is wrong, and then only the usage message is printed and
    nothing is requested; with the right number of arguments the exit
    code is 0, also when the analysis raised. *)
Theorem main_exit_code
    (argv : list string) (github_token : option string) (w w' : world)
    (code : Z) (stdout : list stdout_line) :
  main argv github_token w = Exit code stdout w' ->
  (code = 1 /\ length argv <> 2%nat /\ stdout = [Usage] /\ w' = w) \/
  (code = 0 /\ length argv = 2%nat).
Proof.
  unfold main. destruct (Nat.eqb (length argv) 2) eqn:Hlen; cbn [negb].
  - apply Nat.eqb_eq in Hlen. intros H. right. split; [| exact Hlen].
    destruct (run_analysis (nth 1 argv "") w) as [[] w1 | e w1 |];
      [injection H; intros; subst; reflexivity
      | injection H; intros; subst; reflexivity
      | discriminate].
  - apply Nat.eqb_neq in Hlen. intros H. injection H as <- <- <-.
    left. repeat split; auto.
Qed.

Lemma run_analysis_unnamed_repo username repo repos e rest reqs out :
  py_getitem repo "name" = Err e ->
  rendering (AnalyzingUser username) = None ->
  rendering (FoundRepositories (zlen (repo :: repos))) = None ->
  run_analysis username
    {| pending := page_body (repo :: repos) :: page_body [] :: rest;
       issued := reqs; console := out |}
  = Raise e
      {| pending := rest;
         issued := reqs ++ map (request_of (UserRepos username) repos_params)
                             [1; 2];
         console := out ++ [AnalyzingUser username;
                            FoundRepositories (zlen (repo :: repos))] |}.
Proof.
  intros Hname Huser Hfound.
  unfold run_analysis. unfold bind at 1. unfold print at 1. rewrite Huser.
  cbn [pending issued console]. unfold bind at 1.
  rewrite get_user_repos_fetch_all.
  change (page_body (repo :: repos) :: page_body [] :: rest)
    with (map page_body [repo :: repos] ++ page_body [] :: rest).
  rewrite fetch_all_until_empty by (repeat constructor; discriminate).
  cbn [concat app length]. rewrite app_nil_r.
  unfold bind at 1. unfold print at 1. rewrite Hfound.
  cbn [pending issued console]. unfold bind at 1.
  unfold scan. cbn [for_each_run]. unfold bind at 1. unfold scan_body.
  unfold bind at 1. rewrite Hname. cbn [lift].
  rewrite <- app_assoc. reflexivity.
Qed.

(** X19. An exception of the analysis does not escape [main]: when the
    first record of the repository list has no readable name (and the
    two prints before the scan do not raise), [main] prints that an error
    occurred and exits with code 0, after the two requests for the
    repository list; no release is requested and no statistics are
    printed.  The token warning is printed before, when the token is
    missing or empty. *)
Theorem main_reports_crash
    (script username : string) (github_token : option string)
    (repo : pyval) (repos : list pyval) (e : exn)
    (rest : list response) (reqs : list request) (out : list message) :
  py_getitem repo "name" = Err e ->
  rendering (AnalyzingUser username) = None ->
  rendering (FoundRepositories (zlen (repo :: repos))) = None ->
  main [script; username] github_token
    {| pending := page_body (repo :: repos) :: page_body [] :: rest;
       issued := reqs; console := out |}
  = Exit 0
      ((if str_truthy github_token then [] else [TokenNotFound])
       ++ [AnErrorOccurred e])
      {| pending := rest;
         issued := reqs ++ map (request_of (UserRepos username) repos_params)
                             [1; 2];
         console := out ++ [AnalyzingUser username;
                            FoundRepositories (zlen (repo :: repos))] |}.
Proof.
  intros Hname Huser Hfound. unfold main. cbn [length Nat.eqb negb nth].
  now rewrite (run_analysis_unnamed_repo _ _ _ _ _ _ _ Hname Huser Hfound).
Qed.

(** X20. The requests carry an [Authorization] header exactly when a
    non-empty token is there: the token given to the constructor if it is
    not empty, else the token of the environment if that is not empty.
    The [Accept] and [User-Agent] headers are always sent. *)
Theorem authorization_header
    (username : string) (token github_token : option string) :
  let self := Init.init username token github_token in
  Init.header "Authorization" (Init.headers self)
  = match token, github_token with
    | Some t, Some g =>
        if str_truthy token then Some (String.append "token " t)
        else if str_truthy github_token then Some (String.append "token " g)
        else None
    | Some t, None =>
        if str_truthy token then Some (String.append "token " t) else None
    | None, Some g =>
        if str_truthy github_token then Some (String.append "token " g)
        else None
    | None, None => None
    end /\
  Init.header "Accept" (Init.headers self)
  = Some "application/vnd.github.v3+json" /\
  Init.header "User-Agent" (Init.headers self)
  = Some "GitHub-Releases-Analyzer".
Proof.
  unfold Init.init.
  destruct token as [t |], github_token as [g |]; cbn [str_truthy];
    try destruct (String.eqb t "") eqn:Ht;
    cbn [negb str_truthy]; rewrite ?Ht; cbn [negb];
    try destruct (String.eqb g "") eqn:Hg;
    cbn [negb str_truthy]; rewrite ?Hg, ?Ht; cbn [negb];
    repeat split; reflexivity.
Qed.

(** X21. Sorting does not disturb a result list that is already in
    descending order of [total_downloads]; in particular sorting twice is
    sorting once. *)
Theorem sort_by_downloads_fixes_ranked (results : list (pyval * analysis)) :
  (StronglySorted downloads_ge results -> sort_by_downloads results = results)
  /\
  sort_by_downloads (sort_by_downloads results) = sort_by_downloads results.
Proof.
  unfold sort_by_downloads. split.
  - intros Hs. now apply list_sort_reverse_id.
  - apply list_sort_reverse_id.
    apply (list_sort_reverse_sorted (fun x => total_downloads (snd x))).
Qed.

End Console.

(* ===================================================================== *)
(** ** The properties at sample inputs *)
(* ===================================================================== *)

Lemma fetch_stops_at_empty_page_witness :
  Forall (fun p => p <> []) Sample.pages /\
  (get_repo_releases Sample.quiet "octocat" (PStr "hello")
     {| pending := map page_body Sample.pages ++ [page_body []];
        issued := []; console := [] |}
   = Ret (concat Sample.pages)
       {| pending := [];
          issued := map (request_of (RepoReleases "octocat" (PStr "hello"))
                           releases_params) [1; 2; 3; 4];
          console := [] |}
   /\
   get_user_repos Sample.quiet "octocat"
     {| pending := map page_body Sample.pages ++ [page_body []];
        issued := []; console := [] |}
   = Ret (concat Sample.pages)
       {| pending := [];
          issued := map (request_of (UserRepos "octocat") repos_params)
                      [1; 2; 3; 4];
          console := [] |}) /\
  zlen (concat Sample.pages) = 237.
Proof.
  assert (Hne : Forall (fun p : list pyval => p <> []) Sample.pages)
    by (repeat constructor; discriminate).
  split; [exact Hne |]. split; [| reflexivity].
  exact (fetch_stops_at_empty_page Sample.quiet "octocat" (PStr "hello") Sample.pages
           [] [] [] Hne).
Defined.

Lemma total_downloads_additive_witness :
  total_downloads Sample.analysis_of_releases
  = zsum (map release_downloads Sample.releases) /\
  exists st w',
    scan Sample.quiet "octocat" Sample.repos Sample.scan_world = Ret st w' /\
    Stats.total_downloads (total_stats st)
    = zsum (map (fun x => total_downloads (snd x)) (repos_with_releases st)).
Proof.
  destruct (total_downloads_additive Sample.quiet) as [Hbatch Hscan]. split.
  - apply Hbatch. reflexivity.
  - destruct (scan Sample.quiet "octocat" Sample.repos Sample.scan_world)
      as [st w' | |] eqn:Hrun; try (vm_compute in Hrun; discriminate).
    exists st, w'. split; [reflexivity |].
    apply (Hscan "octocat" Sample.repos Sample.scan_world w' st Hrun).
Defined.

Lemma releases_with_downloads_counts_positive_witness :
  analyze_downloads [Sample.release_idle; Sample.release_v1]
  = Ok {| total_downloads := 10; total_assets := 3;
          releases_with_downloads := 1; total_releases := 2;
          asset_details :=
            rows_of [Sample.release_idle; Sample.release_v1] |} /\
  1 = zcount (fun r => release_downloads r >? 0)
        [Sample.release_idle; Sample.release_v1].
Proof.
  split; [reflexivity |].
  exact (releases_with_downloads_counts_positive
           [Sample.release_idle; Sample.release_v1] _ eq_refl).
Defined.

Lemma total_assets_counts_assets_witness :
  total_assets Sample.analysis_of_releases
  = zsum (map (fun r => zlen (assets_of r)) Sample.releases) /\
  zlen (asset_details Sample.analysis_of_releases)
  = total_assets Sample.analysis_of_releases.
Proof.
  apply (total_assets_counts_assets Sample.releases). reflexivity.
Defined.

Lemma release_name_resolved_per_row_witness :
  map release_name (asset_details Sample.analysis_of_releases)
  = [PStr "v1.0"; PStr "v1.0"; PStr "v0.9"; PStr "Unknown"; PStr "Unknown"].
Proof.
  rewrite (proj1 (release_name_resolved_per_row Sample.releases
                    Sample.analysis_of_releases eq_refl)).
  reflexivity.
Defined.

Lemma scan_skips_repos_without_releases_witness :
  exists st w' fetched,
    scan Sample.quiet "octocat" Sample.repos Sample.scan_world = Ret st w' /\
    fetch_each Sample.quiet "octocat" Sample.repos Sample.scan_world = Ret fetched w' /\
    map has_releases fetched = [true; false; true] /\
    map fst (repos_with_releases st) = [PStr "alpha"; PStr "gamma"] /\
    Forall2 reports (filter has_releases fetched) (repos_with_releases st) /\
    total_stats st = stats_of (map snd (repos_with_releases st)) /\
    Stats.repos_with_releases (total_stats st) = 2.
Proof.
  destruct (scan Sample.quiet "octocat" Sample.repos Sample.scan_world)
    as [st w' | |] eqn:Hrun; try (vm_compute in Hrun; discriminate).
  destruct (scan_skips_repos_without_releases _ _ _ _ _ _ Hrun)
    as (fetched & Hf & Hrep & Hstats & Hcount).
  exists st, w', fetched.
  vm_compute in Hrun. injection Hrun as <- <-.
  vm_compute in Hf. injection Hf as <-.
  repeat split; auto.
Defined.

Lemma releases_with_downloads_le_total_assets_witness :
  releases_with_downloads Sample.analysis_of_releases
  <= total_assets Sample.analysis_of_releases.
Proof.
  apply (releases_with_downloads_le_total_assets Sample.releases).
  reflexivity.
Defined.

Lemma asset_details_sum_to_total_witness :
  Forall (fun row => as_int (downloads row) = Some (row_downloads row))
    (asset_details Sample.analysis_of_releases) /\
  zsum (map row_downloads (asset_details Sample.analysis_of_releases)) = 13.
Proof.
  apply (asset_details_sum_to_total Sample.releases). reflexivity.
Defined.

Lemma fetch_returns_iff_stopped_witness :
  fetch_trace Sample.quiet (RepoReleases "octocat" (PStr "hello")) releases_params
    (ErrorFetchingReleases (PStr "hello"))
    {| pending := [Body (PList [Sample.release_bare]); Body PNone;
                   Failed ReadTimeout];
       issued := []; console := [] |}
    [Sample.release_bare]
    {| pending := [Failed ReadTimeout];
       issued := map (request_of (RepoReleases "octocat" (PStr "hello"))
                        releases_params) [1; 2];
       console := [] |}.
Proof.
  apply (proj1 (proj1 (fetch_returns_iff_stopped Sample.quiet "octocat" (PStr "hello")
                         _ _ _))).
  reflexivity.
Defined.

Lemma fetch_blocked_iff_no_stop_witness :
  get_repo_releases Sample.quiet "octocat" (PStr "hello")
    {| pending := [Body (PList [Sample.release_bare]);
                   Body (PList [Sample.release_v1])];
       issued := []; console := [] |}
  = Blocked.
Proof.
  apply (proj2 (proj1 (fetch_blocked_iff_no_stop Sample.quiet "octocat" (PStr "hello")
                         _))).
  exists [PList [Sample.release_bare]; PList [Sample.release_v1]].
  split; reflexivity.
Defined.

Lemma analyze_downloads_app_witness :
  exists a1 a2,
    analyze_downloads [Sample.release_v1; Sample.release_idle] = Ok a1 /\
    analyze_downloads [Sample.release_untitled; Sample.release_bare]
    = Ok a2 /\
    Sample.analysis_of_releases = merge a1 a2.
Proof.
  apply (proj1 (analyze_downloads_app
                  [Sample.release_v1; Sample.release_idle]
                  [Sample.release_untitled; Sample.release_bare]
                  Sample.analysis_of_releases)).
  reflexivity.
Defined.

Lemma asset_details_rows_witness :
  asset_details Sample.analysis_of_releases = rows_of Sample.releases.
Proof.
  apply (asset_details_rows Sample.releases). reflexivity.
Defined.

Lemma analyze_downloads_without_assets_witness :
  analyze_downloads [Sample.release_bare; PDict [("assets", PList [])]]
  = Ok {| total_downloads := 0;
          total_assets := 0;
          releases_with_downloads := 0;
          total_releases := 2;
          asset_details := [] |}.
Proof.
  apply (analyze_downloads_without_assets
           [Sample.release_bare; PDict [("assets", PList [])]]).
  - reflexivity.
  - intros r [<- | [<- | []]]; reflexivity.
Defined.

Lemma analysis_bounds_witness :
  total_releases Sample.analysis_of_releases = zlen Sample.releases /\
  0 <= releases_with_downloads Sample.analysis_of_releases
    <= total_releases Sample.analysis_of_releases /\
  0 <= total_assets Sample.analysis_of_releases.
Proof.
  apply (analysis_bounds Sample.releases). reflexivity.
Defined.

Lemma no_downloads_iff_no_release_with_downloads_witness :
  0 <= total_downloads Sample.analysis_of_releases /\
  (total_downloads Sample.analysis_of_releases = 0
   <-> releases_with_downloads Sample.analysis_of_releases = 0).
Proof.
  apply (no_downloads_iff_no_release_with_downloads Sample.releases).
  - reflexivity.
  - intros r asset Hr Ha. unfold Sample.releases in Hr. simpl in Hr.
    repeat (destruct Hr as [<- | Hr]); try contradiction;
      simpl in Ha; repeat (destruct Ha as [<- | Ha]); try contradiction;
      vm_compute; discriminate.
Defined.


Lemma scan_aborts_on_unnamed_repo_witness :
  scan Sample.quiet "octocat"
    ([PDict [("name", PStr "alpha")]]
     ++ PDict [("full_name", PStr "octocat/beta")]
     :: [PDict [("name", PStr "gamma")]])
    {| pending := [page_body []; page_body [Sample.release_v1]];
       issued := []; console := [] |}
  = Raise KeyError
      {| pending := [page_body [Sample.release_v1]];
         issued := [request_of (RepoReleases "octocat" (PStr "alpha"))
                      releases_params 1];
         console := [] |}.
Proof.
  apply (scan_aborts_on_unnamed_repo Sample.quiet "octocat"
           [PDict [("name", PStr "alpha")]]
           [PDict [("name", PStr "gamma")]]
           (PDict [("full_name", PStr "octocat/beta")]) KeyError
           _ _ scan_init).
  - reflexivity.
  - reflexivity.
Defined.


Lemma main_exit_code_witness :
  (1 = 1 /\ length ["github-metrics.py"] <> 2%nat /\
   [Usage] = [Usage] /\ Sample.scan_world = Sample.scan_world) \/
  (1 = 0 /\ length ["github-metrics.py"] = 2%nat).
Proof.
  exact (main_exit_code Sample.quiet ["github-metrics.py"] (Some "secret")
           Sample.scan_world Sample.scan_world 1 [Usage] eq_refl).
Defined.

Lemma sort_by_downloads_fixes_ranked_witness :
  sort_by_downloads
    [(PStr "alpha", Sample.analysis_of_releases);
     (PStr "beta", merge Sample.analysis_of_releases
                     Sample.analysis_of_releases);
     (PStr "gamma", Sample.analysis_of_releases)]
  = [(PStr "beta", merge Sample.analysis_of_releases
                     Sample.analysis_of_releases);
     (PStr "alpha", Sample.analysis_of_releases);
     (PStr "gamma", Sample.analysis_of_releases)] /\
  sort_by_downloads
    [(PStr "beta", merge Sample.analysis_of_releases
                     Sample.analysis_of_releases);
     (PStr "alpha", Sample.analysis_of_releases);
     (PStr "gamma", Sample.analysis_of_releases)]
  = [(PStr "beta", merge Sample.analysis_of_releases
                     Sample.analysis_of_releases);
     (PStr "alpha", Sample.analysis_of_releases);
     (PStr "gamma", Sample.analysis_of_releases)].
Proof.
  split; [reflexivity |].
  apply (proj1 (sort_by_downloads_fixes_ranked _)).
  repeat constructor; unfold downloads_ge; simpl; discriminate.
Defined.

Lemma fetch_error_print_escapes_witness :
  Sample.tagged (ErrorFetchingReleases (PStr "[/x]") (HTTPError 502))
  = Some MarkupError /\
  get_repo_releases Sample.tagged "octocat" (PStr "[/x]")
    {| pending := [page_body [Sample.release_v1]; Failed (HTTPError 502);
                   page_body []];
       issued := []; console := [] |}
  = Raise MarkupError
      {| pending := [page_body []];
         issued := map (request_of (RepoReleases "octocat" (PStr "[/x]"))
                          releases_params) [1; 2];
         console := [] |}.
Proof.
  split; [reflexivity |].
  apply (proj1 (fetch_error_print_escapes Sample.tagged "octocat"
                  (PStr "[/x]") [[Sample.release_v1]] (HTTPError 502)
                  MarkupError [page_body []] [] []
                  ltac:(repeat constructor; discriminate))).
  reflexivity.
Defined.

Lemma fetch_raises_on_not_iterable_witness :
  get_user_repos Sample.quiet "octocat"
    {| pending := [Body (PList [Sample.release_bare]); Body (PInt 404);
                   Body (PList [])];
       issued := []; console := [] |}
  = Raise TypeError
      {| pending := [Body (PList [])];
         issued := map (request_of (UserRepos "octocat") repos_params) [1; 2];
         console := [] |}.
Proof.
  exact (proj2 (fetch_raises_on_not_iterable Sample.quiet "octocat" PNone
                  [PList [Sample.release_bare]] (PInt 404) [Body (PList [])]
                  [] [] eq_refl eq_refl eq_refl)).
Defined.

Lemma analyze_downloads_returns_on_accepted_witness :
  exists a, analyze_downloads Sample.releases = Ok a.
Proof.
  apply (analyze_downloads_returns_on_accepted Sample.releases).
  reflexivity.
Defined.

Lemma scanned_repos_have_releases_witness :
  exists st w',
    scan Sample.quiet "octocat" Sample.repos Sample.scan_world = Ret st w' /\
    Forall (fun entry => 1 <= total_releases (snd entry))
      (repos_with_releases st).
Proof.
  destruct (scan Sample.quiet "octocat" Sample.repos Sample.scan_world)
    as [st w' | |] eqn:Hrun; try (vm_compute in Hrun; discriminate).
  exists st, w'. split; [reflexivity |].
  exact (scanned_repos_have_releases _ _ _ _ _ _ Hrun).
Defined.

Lemma run_analysis_without_repos_witness :
  run_analysis Sample.quiet "ghost"
    {| pending := [Failed (HTTPError 404)]; issued := []; console := [] |}
  = Ret tt
      {| pending := [];
         issued := [request_of (UserRepos "ghost") repos_params 1];
         console := [AnalyzingUser "ghost";
                     ErrorFetchingRepositories (HTTPError 404);
                     FailedToFetchRepositories] |}.
Proof.
  exact (run_analysis_without_repos Sample.quiet "ghost"
           (Failed (HTTPError 404)) [] [] [] eq_refl eq_refl eq_refl
           eq_refl).
Defined.

Lemma scan_passes_over_failed_repo_witness :
  for_each_run (scan_body Sample.quiet "octocat")
    [PDict [("name", PStr "alpha")]; PDict [("name", PStr "beta")]]
    scan_init
    {| pending := [Failed ConnectionError; page_body []];
       issued := []; console := [] |}
  = for_each_run (scan_body Sample.quiet "octocat")
      [PDict [("name", PStr "beta")]]
      scan_init
      {| pending := [page_body []];
         issued := [request_of (RepoReleases "octocat" (PStr "alpha"))
                      releases_params 1];
         console := [ErrorFetchingReleases (PStr "alpha") ConnectionError] |}.
Proof.
  exact (scan_passes_over_failed_repo Sample.quiet "octocat"
           (PDict [("name", PStr "alpha")]) [PDict [("name", PStr "beta")]]
           (PStr "alpha") scan_init (Failed ConnectionError) [page_body []]
           [] [] eq_refl eq_refl eq_refl).
Defined.

Lemma scan_keeps_partial_releases_witness :
  scan_body Sample.quiet "octocat" scan_init (PDict [("name", PStr "alpha")])
    {| pending := [page_body [Sample.release_v1]; Failed (HTTPError 502);
                   page_body [Sample.release_untitled]];
       issued := []; console := [] |}
  = Ret (fold_in scan_init (PStr "alpha")
           {| total_downloads := 10; total_assets := 2;
              releases_with_downloads := 1; total_releases := 1;
              asset_details := rows_of [Sample.release_v1] |})
      {| pending := [page_body [Sample.release_untitled]];
         issued := map (request_of (RepoReleases "octocat" (PStr "alpha"))
                          releases_params) [1; 2];
         console := [ErrorFetchingReleases (PStr "alpha") (HTTPError 502)] |}.
Proof.
  apply (scan_keeps_partial_releases Sample.quiet "octocat"
           (PDict [("name", PStr "alpha")]) (PStr "alpha") scan_init
           [[Sample.release_v1]] _ (HTTPError 502)
           [page_body [Sample.release_untitled]] [] []).
  - reflexivity.
  - discriminate.
  - repeat constructor; discriminate.
  - reflexivity.
  - reflexivity.
Defined.

Lemma main_reports_crash_witness :
  main Sample.quiet ["github-metrics.py"; "octocat"] None
    {| pending := [page_body [PStr "alpha"; PStr "beta"]; page_body [];
                   page_body [Sample.release_v1]];
       issued := []; console := [] |}
  = Exit 0 [TokenNotFound; AnErrorOccurred TypeError]
      {| pending := [page_body [Sample.release_v1]];
         issued := map (request_of (UserRepos "octocat") repos_params)
                     [1; 2];
         console := [AnalyzingUser "octocat"; FoundRepositories 2] |}.
Proof.
  exact (main_reports_crash Sample.quiet "github-metrics.py" "octocat" None
           (PStr "alpha") [PStr "beta"] TypeError
           [page_body [Sample.release_v1]] [] [] eq_refl eq_refl eq_refl).
Defined.

Lemma run_analysis_report_witness :
  exists w',
    run_analysis Sample.quiet "octocat"
      {| pending := page_body Sample.repos :: page_body []
                    :: Sample.scan_responses;
         issued := []; console := [] |}
    = Ret tt w' /\
    exists st w2,
      scan Sample.quiet "octocat" Sample.repos
        (printed (FoundRepositories 3)
           {| pending := Sample.scan_responses;
              issued := map (request_of (UserRepos "octocat") repos_params)
                          [1; 2];
              console := [AnalyzingUser "octocat"] |})
      = Ret st w2 /\
      pending w' = pending w2 /\ issued w' = issued w2 /\
      console w' = console w2 ++ report_of st.
Proof.
  destruct (run_analysis Sample.quiet "octocat"
              {| pending := page_body Sample.repos :: page_body []
                            :: Sample.scan_responses;
                 issued := []; console := [] |})
    as [[] w' | |] eqn:Hrun; try (vm_compute in Hrun; discriminate).
  exists w'. split; [reflexivity |].
  destruct (run_analysis_report Sample.quiet "octocat" _ _ Hrun)
    as (repos & w1 & Hrepos & Hreport).
  vm_compute in Hrepos. injection Hrepos as <- <-.
  exact Hreport.
Defined.
